(** * NF-e folder processor: a shallow embedding of [nfe_parser.py]

    The development follows the source file top to bottom:

    - [PyStr]: the handful of [str] methods and [os.path] helpers the parser
      calls ([startswith], [endswith], [lower], [strip], [split], [replace],
      [basename], [join]);
    - [Py]: exceptions and the error monad in which fallible code runs;
    - [ETree]: the parsed document tree of [lxml.etree] and the ElementPath
      fragment behind [find]/[findall];
    - [Pandas]: the table built by [pd.DataFrame] and the coercions applied
      to its columns;
    - [NFe]: [NFEParser] itself ([_get_text], [parse_xml_file],
      [process_folder]) over an explicit file system.

    Strings are byte strings ([string] of the standard library); literals of
    the source that contain accented letters are kept as their UTF-8 bytes. *)

From Stdlib Require Import String Ascii List Bool Arith ZArith Lia.
From Stdlib Require Import DecimalString Orders Sorted Permutation Mergesort.
Import ListNotations.
Open Scope string_scope.
Set Warnings "-register-all".

(* ===================================================================== *)
(** ** Python strings *)
(* ===================================================================== *)

Module PyStr.

(** [s.startswith(p)] *)
Definition startswith (s p : string) : bool := String.prefix p s.

(** [s.endswith(suffix)]: the last [len(suffix)] characters of [s] are
    [suffix]. *)
Definition endswith (s suffix : string) : bool :=
  (String.length suffix <=? String.length s)%nat &&
  String.eqb
    (substring (String.length s - String.length suffix)
               (String.length suffix) s)
    suffix.

(** [c.lower()] on the ASCII range. *)
Definition ascii_lower (c : ascii) : ascii :=
  let n := nat_of_ascii c in
  if ((65 <=? n) && (n <=? 90))%nat then ascii_of_nat (n + 32) else c.

(** [s.lower()] *)
Fixpoint lower (s : string) : string :=
  match s with
  | EmptyString => EmptyString
  | String c r => String (ascii_lower c) (lower r)
  end.

(** The characters [str.strip()] removes, on the ASCII range: tab, line
    feed, vertical tab, form feed, carriage return, the four separators
    0x1c-0x1f and the space. *)
Definition isspace (c : ascii) : bool :=
  let n := nat_of_ascii c in
  ((9 <=? n) && (n <=? 13) || (28 <=? n) && (n <=? 32))%nat.

Fixpoint lstrip (s : string) : string :=
  match s with
  | EmptyString => EmptyString
  | String c r => if isspace c then lstrip r else s
  end.

(** [rstrip] keeps a character when it is not a space or when something
    is kept after it. *)
Fixpoint rstrip (s : string) : string :=
  match s with
  | EmptyString => EmptyString
  | String c r =>
      match rstrip r with
      | EmptyString => if isspace c then EmptyString else String c EmptyString
      | r' => String c r'
      end
  end.

(** [s.strip()] *)
Definition strip (s : string) : string := rstrip (lstrip s).

(** [s.split(sep)] for a one-character separator: the pieces between the
    occurrences of [sep]; always at least one piece. *)
Fixpoint split (sep : ascii) (s : string) : list string :=
  match s with
  | EmptyString => [EmptyString]
  | String c r =>
      if Ascii.eqb c sep then EmptyString :: split sep r
      else match split sep r with
           | [] => [String c EmptyString]
           | p :: ps => String c p :: ps
           end
  end.

(** [s.replace(old, '')] for a non-empty [old]: the occurrences of [old]
    are found left to right, without overlap, and dropped.  [skip] counts
    the characters of an occurrence that are still to be dropped. *)
Fixpoint remove_from (skip : nat) (old s : string) : string :=
  match s with
  | EmptyString => EmptyString
  | String c r =>
      match skip with
      | S k => remove_from k old r
      | O =>
          if String.prefix old s
          then remove_from (String.length old - 1) old r
          else String c (remove_from 0 old r)
      end
  end.

Definition remove (s old : string) : string := remove_from 0 old s.

(** [old in s] *)
Fixpoint contains (s old : string) : bool :=
  match s with
  | EmptyString => String.prefix old EmptyString
  | String _ r => String.prefix old s || contains r old
  end.

(** [os.path.basename(p)] (posixpath): what follows the last slash. *)
Definition basename (p : string) : string := last (split "/" p) EmptyString.

(** [os.path.join(a, b)] (posixpath). *)
Definition join (a b : string) : string :=
  if startswith b "/" then b
  else if String.eqb a "" || endswith a "/" then a ++ b
  else a ++ "/" ++ b.

End PyStr.

(* ===================================================================== *)
(** ** Exceptions and the error monad *)
(* ===================================================================== *)

Module Py.

Inductive exn_class : Type :=
  | ValueError
  | SyntaxError
  | AttributeError
  | IndexError
  | KeyError
  | NotImplementedError
  | NotADirectoryError
  | XMLSyntaxError
  | OSError.

(** An exception object: its class and [str(e)]. *)
Record exn : Type := Exn { exn_cls : exn_class; exn_str : string }.

Inductive result (A : Type) : Type :=
  | Ok (a : A)
  | Raise (e : exn).
Arguments Ok {A} a.
Arguments Raise {A} e.

Definition bind {A B : Type} (m : result A) (k : A -> result B) : result B :=
  match m with
  | Ok a => k a
  | Raise e => Raise e
  end.

(** [try: m except Exception as e: h e] *)
Definition try_except {A : Type} (m : result A) (h : exn -> result A)
  : result A :=
  match m with
  | Ok a => Ok a
  | Raise e => h e
  end.


Definition exn_class_eqb (a b : exn_class) : bool :=
  match a, b with
  | ValueError, ValueError | SyntaxError, SyntaxError
  | AttributeError, AttributeError | IndexError, IndexError
  | KeyError, KeyError | NotImplementedError, NotImplementedError
  | NotADirectoryError, NotADirectoryError
  | XMLSyntaxError, XMLSyntaxError | OSError, OSError => true
  | _, _ => false
  end.

End Py.

Import Py.

Declare Scope py_scope.
Delimit Scope py_scope with py.
Notation "x <- m ;; k" := (Py.bind m (fun x => k))
  (at level 61, m at next level, right associativity) : py_scope.
Open Scope py_scope.


(* ===================================================================== *)
(** ** lxml.etree: document trees and ElementPath *)
(* ===================================================================== *)

Module ETree.

(** [elem.tag].  For an element it is a string, ["{uri}local"] when the
    element is in a namespace and ["local"] when it is not.  For a comment
    or a processing instruction it is the factory function
    ([etree.Comment], [etree.ProcessingInstruction]), which has none of the
    methods of [str]. *)
Inductive tag_t : Type :=
  | Tag (name : string)
  | Comment
  | ProcessingInstruction.

(** A node of the parsed tree: tag, attributes, [elem.text] ([None] when the
    node has no text) and children, comments and processing instructions
    included. *)
Inductive element : Type :=
  | Element (tag : tag_t) (attrib : list (string * string))
            (text : option string) (children : list element).

Definition tag (e : element) : tag_t :=
  match e with Element t _ _ _ => t end.
Definition attrib (e : element) : list (string * string) :=
  match e with Element _ a _ _ => a end.
Definition text (e : element) : option string :=
  match e with Element _ _ t _ => t end.
Definition children (e : element) : list element :=
  match e with Element _ _ _ cs => cs end.

(** [elem.get(key, default)] *)
Definition get (e : element) (key default : string) : string :=
  match List.find (fun kv => String.eqb (fst kv) key) (attrib e) with
  | Some kv => snd kv
  | None => default
  end.

(** [elem.iter()]: the node and everything below it, in document order. *)
Fixpoint iter (e : element) : list element :=
  match e with
  | Element _ _ _ cs => e :: flat_map iter cs
  end.

(** A tag pattern matches elements only: ["*"] any of them, a name the
    elements whose [tag] is that very string, so that a name without
    [{uri}] matches elements outside every namespace and no others. *)
Definition tag_matches (pat : string) (e : element) : bool :=
  match tag e with
  | Tag n => String.eqb pat "*" || String.eqb n pat
  | _ => false
  end.

Definition iterchildren (pat : string) (e : element) : list element :=
  filter (tag_matches pat) (children e).

(** [elem.iterdescendants(tag)]: the node itself is not a candidate. *)
Definition iterdescendants (pat : string) (e : element) : list element :=
  filter (tag_matches pat) (flat_map iter (children e)).

(** *** ElementPath

    The fragment of the path language built from [.], [/], [//], [*] and
    names (with or without a prefix).  A token is the pair (operator, tag)
    of the tokenizer's regular expression; one of the two is empty. *)

Definition token : Type := (string * string)%type.

(** Quotes (the double quote is character 34), brackets, parentheses, [@],
    [=], braces and white space start the tokens of predicates, attributes
    and expanded names. *)
Definition outside_fragment (c : ascii) : bool :=
  PyStr.isspace c ||
  existsb (Ascii.eqb c)
    ["'"; ascii_of_nat 34; "["; "]"; "("; ")"; "@"; "="; "{"; "}"]%char.

Definition flush (cur : option string) (ts : list token) : list token :=
  match cur with
  | Some t => (EmptyString, t) :: ts
  | None => ts
  end.

(** [xpath_tokenizer_re.findall(pattern)].  [cur] is the name being read:
    once a name has started it runs up to the next slash.  [None] when the
    pattern leaves the fragment. *)
Fixpoint findall_tokens (cur : option string) (s : string)
  : option (list token) :=
  match s with
  | EmptyString => Some (flush cur [])
  | String c r =>
      if outside_fragment c then None
      else if Ascii.eqb c "/" then
        match r with
        | String "/" r' =>
            option_map (fun ts => flush cur (("//", "") :: ts))
                       (findall_tokens None r')
        | _ =>
            option_map (fun ts => flush cur (("/", "") :: ts))
                       (findall_tokens None r)
        end
      else
        match cur with
        | Some t => findall_tokens (Some (t ++ String c "")) r
        | None =>
            if Ascii.eqb c "." then
              match r with
              | String "." _ => None
              | _ => option_map (cons (".", "")) (findall_tokens None r)
              end
            else if Ascii.eqb c "*" then
              option_map (cons ("*", "")) (findall_tokens None r)
            else if Ascii.eqb c ":" then None
            else findall_tokens (Some (String c "")) r
        end
  end.

(** [tag.split(":", 1)] *)
Fixpoint split_colon (s : string) : option (string * string) :=
  match s with
  | EmptyString => None
  | String c r =>
      if Ascii.eqb c ":" then Some (EmptyString, r)
      else option_map (fun pr => (String c (fst pr), snd pr)) (split_colon r)
  end.

Definition dict_get (d : list (string * string)) (k : string)
  : option string :=
  option_map snd (List.find (fun kv => String.eqb (fst kv) k) d).

(** [xpath_tokenizer]: a prefixed name is expanded through the prefix map,
    an unprefixed one through the default namespace when the map has one.
    The generator raises when the offending token is reached, hence a
    result per token. *)
Definition expand_token (namespaces : option (list (string * string)))
  (tk : token) : result token :=
  let (ttype, tg) := tk in
  if String.eqb tg "" then Ok tk
  else
    match split_colon tg with
    | Some (prefix, uri) =>
        match namespaces with
        | Some ((_ :: _) as ns) =>
            match dict_get ns prefix with
            | Some href => Ok (ttype, "{" ++ href ++ "}" ++ uri)
            | None =>
                Raise (Exn SyntaxError
                  ("prefix '" ++ prefix ++ "' not found in prefix map"))
            end
        | _ =>
            Raise (Exn SyntaxError
              ("prefix '" ++ prefix ++ "' not found in prefix map"))
        end
    | None =>
        match namespaces with
        | Some ((_ :: _) as ns) =>
            match dict_get ns "" with
            | Some (String _ _ as d) => Ok (ttype, "{" ++ d ++ "}" ++ tg)
            | _ => Ok tk
            end
        | _ => Ok tk
        end
    end.

Inductive selector : Type :=
  | prepare_child (pat : string)
  | prepare_star
  | prepare_self
  | prepare_descendant (pat : string).

(** The loop of [_build_path_iterator].  [between] holds after a step has
    been built: one [/] is then skipped.  A token that is no key of [ops]
    is a [KeyError]. *)
Fixpoint build (between : bool) (toks : list (result token))
  : result (list selector) :=
  match toks with
  | [] => Ok []
  | Raise e :: _ => Raise e
  | Ok (op, tg) :: rest =>
      if between && String.eqb op "/" then build false rest
      else if String.eqb op "" then
        sels <- build true rest ;; Ok (prepare_child tg :: sels)
      else if String.eqb op "*" then
        sels <- build true rest ;; Ok (prepare_star :: sels)
      else if String.eqb op "." then
        sels <- build true rest ;; Ok (prepare_self :: sels)
      else if String.eqb op "//" then
        match rest with
        | [] => Raise (Exn SyntaxError "invalid path")
        | Raise e :: _ => Raise e
        | Ok (op', tg') :: rest' =>
            if String.eqb op' "*" then
              sels <- build true rest' ;; Ok (prepare_descendant "*" :: sels)
            else if String.eqb op' "" then
              sels <- build true rest' ;; Ok (prepare_descendant tg' :: sels)
            else Raise (Exn SyntaxError "invalid descendant")
        end
      else Raise (Exn KeyError ("'" ++ op ++ "'"))
  end.

(** [_build_path_iterator(path, namespaces)].  A pattern outside the
    fragment is reported as [NotImplementedError]; every path the parser
    builds is inside it. *)
Definition build_path_iterator (path : string)
  (namespaces : option (list (string * string))) : result (list selector) :=
  let path := if PyStr.endswith path "/" then path ++ "*" else path in
  if PyStr.startswith path "/" then
    Raise (Exn SyntaxError "cannot use absolute path on element")
  else
    match findall_tokens None path with
    | None => Raise (Exn NotImplementedError path)
    | Some [] => Raise (Exn SyntaxError "empty path expression")
    | Some toks => build false (map (expand_token namespaces) toks)
    end.

Definition select (sel : selector) (result : list element) : list element :=
  match sel with
  | prepare_child pat => flat_map (iterchildren pat) result
  | prepare_star => flat_map (iterchildren "*") result
  | prepare_self => result
  | prepare_descendant pat => flat_map (iterdescendants pat) result
  end.

(** [elem.iterfind(path, namespaces)], [elem.findall] and [elem.find]. *)
Definition iterfind (elem : element) (path : string)
  (namespaces : option (list (string * string))) : result (list element) :=
  selector <- build_path_iterator path namespaces ;;
  Ok (fold_left (fun result sel => select sel result) selector [elem]).

Definition findall := iterfind.

Definition find (elem : element) (path : string)
  (namespaces : option (list (string * string))) : result (option element) :=
  found <- iterfind elem path namespaces ;;
  Ok (hd_error found).

End ETree.


(* ===================================================================== *)
(** ** pandas: tables and column coercion *)
(* ===================================================================== *)

Module Pandas.

(** The values the parser stores in a record: [str] and [int]. *)
Inductive value : Type :=
  | VStr (s : string)
  | VInt (n : Z).

(** A record of the parser: a [dict] with string keys, in insertion
    order. *)
Definition dict : Type := list (string * value).

Definition dict_lookup (d : dict) (k : string) : option value :=
  option_map snd (List.find (fun kv => String.eqb (fst kv) k) d).

Section Frames.

(** The numbers of a numeric column and the time stamps of a date column.
    [to_float s] is the number a string parses to, if any.
    [to_timestamp col s] is the time stamp [s] parses to, if any, within
    the column whose strings are [col]. *)
Variables float timestamp : Type.
Variable to_float : string -> option float.
Variable to_timestamp : list string -> string -> option timestamp.

Inductive cell : Type :=
  | Str (s : string)
  | Int (n : Z)
  | Float (x : float)
  | NaN
  | Timestamp (t : timestamp)
  | NaT.

(** A table: its column labels and its rows, each row holding one cell per
    column. *)
Record DataFrame : Type := mkDataFrame {
  columns : list string;
  rows : list (list (string * cell))
}.

Definition cell_of_value (v : value) : cell :=
  match v with
  | VStr s => Str s
  | VInt n => Int n
  end.

Definition mem (k : string) (l : list string) : bool :=
  existsb (String.eqb k) l.

(** The labels of [pd.DataFrame(records)]: every key, in order of first
    appearance. *)
Fixpoint union_keys (seen : list string) (records : list dict)
  : list string :=
  match records with
  | [] => seen
  | d :: rest =>
      union_keys
        (fold_left (fun acc k => if mem k acc then acc else (acc ++ [k])%list)
                   (map fst d) seen)
        rest
  end.

(** [pd.DataFrame(records)]: one row per record; a key the record lacks is
    [NaN] in its row. *)
Definition of_records (records : list dict) : DataFrame :=
  let cols := union_keys [] records in
  mkDataFrame cols
    (map (fun d =>
            map (fun c => (c, match dict_lookup d c with
                              | Some v => cell_of_value v
                              | None => NaN
                              end)) cols)
         records).

(** [len(df)] *)
Definition len (df : DataFrame) : nat := List.length (rows df).

(** [df[col]] *)
Definition column (df : DataFrame) (col : string) : list cell :=
  flat_map (fun row => map snd
              (filter (fun kc => String.eqb (fst kc) col) row)) (rows df).

(** [df.at[i, col]] *)
Definition at_ (df : DataFrame) (i : nat) (col : string) : option cell :=
  match nth_error (rows df) i with
  | Some row =>
      option_map snd (List.find (fun kc => String.eqb (fst kc) col) row)
  | None => None
  end.

(** [df[col] = f(df[col])] for a cell-wise [f]. *)
Definition assign (df : DataFrame) (col : string) (f : cell -> cell)
  : DataFrame :=
  mkDataFrame (columns df)
    (map (map (fun kc : string * cell =>
                 if String.eqb (fst kc) col then (fst kc, f (snd kc))
                 else kc))
         (rows df)).

(** One entry under [pd.to_numeric(_, errors='coerce')]: a string becomes
    the number it parses to, or [NaN]. *)
Definition to_numeric (c : cell) : cell :=
  match c with
  | Str s => match to_float s with
             | Some x => Float x
             | None => NaN
             end
  | other => other
  end.

Definition strings_of (cs : list cell) : list string :=
  flat_map (fun c => match c with Str s => [s] | _ => [] end) cs.

(** One entry under [pd.to_datetime(_, errors='coerce')]. *)
Definition to_datetime (col : list string) (c : cell) : cell :=
  match c with
  | Str s => match to_timestamp col s with
             | Some t => Timestamp t
             | None => NaT
             end
  | NaN => NaT
  | other => other
  end.

End Frames.

Arguments Str {float timestamp} s.
Arguments Int {float timestamp} n.
Arguments Float {float timestamp} x.
Arguments NaN {float timestamp}.
Arguments Timestamp {float timestamp} t.
Arguments NaT {float timestamp}.
Arguments mkDataFrame {float timestamp} columns rows.
Arguments columns {float timestamp} d.
Arguments rows {float timestamp} d.
Arguments of_records {float timestamp} records.
Arguments len {float timestamp} df.
Arguments column {float timestamp} df col.
Arguments at_ {float timestamp} df i col.
Arguments assign {float timestamp} df col f.
Arguments to_numeric {float timestamp} to_float c.
Arguments to_datetime {float timestamp} to_timestamp col c.
Arguments strings_of {float timestamp} cs.
Arguments cell_of_value {float timestamp} v.

End Pandas.

(* ===================================================================== *)
(** ** nfe_parser.py *)
(* ===================================================================== *)

Module NFe.

Import PyStr ETree Pandas.

(** [NFEParser.NAMESPACES] *)
Definition NAMESPACES : list (string * string) :=
  [("nfe", "http://www.portalfiscal.inf.br/nfe")].

(** What a path of the file system names. *)
Inductive fsnode : Type :=
  | RegularFile
  | Directory (entries : list string).

(** The parser object: [self.data]. *)
Record NFEParser : Type := mkParser { data : list dict }.

(** [NFEParser()] *)
Definition __init__ : NFEParser := mkParser [].

(** [str(e)] of the [AttributeError] raised by [elem.tag.startswith] on a
    comment or a processing instruction (the wording of the type name is
    the one of current lxml builds). *)
Definition no_startswith : string :=
  "'cython_function_or_method' object has no attribute 'startswith'".

(** The body of the namespace-removal loop, on one node's tag:
    [if elem.tag.startswith('{'): elem.tag = elem.tag.split('}')[1]]. *)
Definition strip_tag (t : tag_t) : result tag_t :=
  match t with
  | Tag name =>
      if startswith name "{" then
        match nth_error (split "}" name) 1 with
        | Some local => Ok (Tag local)
        | None => Raise (Exn IndexError "list index out of range")
        end
      else Ok t
  | Comment | ProcessingInstruction => Raise (Exn AttributeError no_startswith)
  end.

(** [for elem in root.iter(): ...]: the tree after the loop, or the
    exception that interrupts it. *)
Fixpoint strip_namespaces (e : element) : result element :=
  match e with
  | Element t a x cs =>
      t' <- strip_tag t ;;
      cs' <- (fix each (l : list element) : result (list element) :=
                match l with
                | [] => Ok []
                | c :: l' =>
                    c' <- strip_namespaces c ;;
                    l'' <- each l' ;;
                    Ok (c' :: l'')
                end) cs ;;
      Ok (Element t' a x cs')
  end.

(** Lines 36-44 of [parse_xml_file]: the [infNFe] node, looked up with the
    namespace first and by bare name after the namespaces are removed. *)
Definition locate_infNFe (root : element) : result (option element) :=
  nfe_info <- find root ".//nfe:infNFe" (Some NAMESPACES) ;;
  match nfe_info with
  | Some _ => Ok nfe_info
  | None =>
      root' <- strip_namespaces root ;;
      find root' ".//infNFe" None
  end.

(** [NFEParser._get_text] *)
Definition _get_text (parent : option element) (tag : string)
  (default : string) : result string :=
  match parent with
  | None => Ok default
  | Some parent =>
      elem <- find parent (".//" ++ tag) None ;;
      match elem with
      | Some elem =>
          match text elem with
          | Some (String _ _ as t) => Ok (strip t)
          | _ => Ok default
          end
      | None => Ok default
      end
  end.

(** [a or b] on strings, [b] being evaluated only when [a] is empty. *)
Definition or_else (a : string) (b : result string) : result string :=
  if String.eqb a "" then b else Ok a.

(** The record built from the [infNFe] node (lines 49-88). *)
Definition extract_fields (file_path : string) (nfe_info : element)
  : result dict :=
  ide <- find nfe_info ".//ide" None ;;
  emit <- find nfe_info ".//emit" None ;;
  dest <- find nfe_info ".//dest" None ;;
  total <- find nfe_info ".//total" None ;;
  let arquivo := basename file_path in
  numero_nf <- _get_text ide "nNF" "" ;;
  serie <- _get_text ide "serie" "" ;;
  dhEmi <- _get_text ide "dhEmi" "" ;;
  data_emissao <- or_else dhEmi (_get_text ide "dEmi" "") ;;
  let chave_acesso := remove (get nfe_info "Id" "") "NFe" in
  emit_cnpj <- _get_text emit "CNPJ" "" ;;
  emit_nome <- _get_text emit "xNome" "" ;;
  emit_fantasia <- _get_text emit "xFant" "" ;;
  cnpj <- _get_text dest "CNPJ" "" ;;
  dest_cnpj <- or_else cnpj (_get_text dest "CPF" "") ;;
  dest_nome <- _get_text dest "xNome" "" ;;
  valor_produtos <- _get_text total ".//vProd" "" ;;
  valor_desconto <- _get_text total ".//vDesc" "" ;;
  valor_frete <- _get_text total ".//vFrete" "" ;;
  valor_total <- _get_text total ".//vNF" "" ;;
  valor_icms <- _get_text total ".//vICMS" "" ;;
  valor_ipi <- _get_text total ".//vIPI" "" ;;
  natureza_operacao <- _get_text ide "natOp" "" ;;
  tpNF <- _get_text ide "tpNF" "" ;;
  let tipo_operacao := if String.eqb tpNF "0" then "Entrada" else "Saída" in
  items <- findall nfe_info ".//det" None ;;
  Ok [ ("arquivo", VStr arquivo);
       ("numero_nf", VStr numero_nf);
       ("serie", VStr serie);
       ("data_emissao", VStr data_emissao);
       ("chave_acesso", VStr chave_acesso);
       ("emit_cnpj", VStr emit_cnpj);
       ("emit_nome", VStr emit_nome);
       ("emit_fantasia", VStr emit_fantasia);
       ("dest_cnpj", VStr dest_cnpj);
       ("dest_nome", VStr dest_nome);
       ("valor_produtos", VStr valor_produtos);
       ("valor_desconto", VStr valor_desconto);
       ("valor_frete", VStr valor_frete);
       ("valor_total", VStr valor_total);
       ("valor_icms", VStr valor_icms);
       ("valor_ipi", VStr valor_ipi);
       ("natureza_operacao", VStr natureza_operacao);
       ("tipo_operacao", VStr tipo_operacao);
       ("qtd_itens", VInt (Z.of_nat (List.length items))) ].

(** The record of the [except] clause. *)
Definition error_record (file_path : string) (e : exn) : dict :=
  [ ("arquivo", VStr (basename file_path)); ("erro", VStr (exn_str e)) ].

(** [if nfe_data:] is false for [None] and for an empty [dict]. *)
Definition truthy (nfe_data : option dict) : bool :=
  match nfe_data with
  | Some (_ :: _) => true
  | _ => false
  end.

(** [f.lower().endswith('.xml')] *)
Definition is_xml (f : string) : bool := endswith (lower f) ".xml".

Definition value_columns : list string :=
  ["valor_produtos"; "valor_desconto"; "valor_frete";
   "valor_total"; "valor_icms"; "valor_ipi"].

Section World.

(** The file system, and what [etree.parse(p).getroot()] gives for the
    file at [p]: its root, or the exception of the parser. *)
Variable fs : string -> option fsnode.
Variable etree_parse : string -> result element.

Variables float timestamp : Type.
Variable to_float : string -> option float.
Variable to_timestamp : list string -> string -> option timestamp.

(** [os.path.exists] *)
Definition os_path_exists (p : string) : bool :=
  match fs p with
  | Some _ => true
  | None => false
  end.

(** [os.listdir] *)
Definition os_listdir (p : string) : result (list string) :=
  match fs p with
  | Some (Directory entries) => Ok entries
  | Some RegularFile =>
      Raise (Exn NotADirectoryError
               ("[Errno 20] Not a directory: '" ++ p ++ "'"))
  | None =>
      Raise (Exn OSError
               ("[Errno 2] No such file or directory: '" ++ p ++ "'"))
  end.

(** The [try] block of [parse_xml_file]. *)
Definition parse_xml_file_try (file_path : string) : result (option dict) :=
  root <- etree_parse file_path ;;
  nfe_info <- locate_infNFe root ;;
  match nfe_info with
  | None => Ok None
  | Some nfe_info =>
      data <- extract_fields file_path nfe_info ;;
      Ok (Some data)
  end.

(** [NFEParser.parse_xml_file] *)
Definition parse_xml_file (file_path : string) : result (option dict) :=
  try_except (parse_xml_file_try file_path)
             (fun e => Ok (Some (error_record file_path e))).

(** The outcome of a call on the parser object: the value returned or the
    exception raised, the object afterwards, and the files handed to
    [parse_xml_file] during the call, in order. *)
Definition outcome (A : Type) : Type :=
  (result A * NFEParser * list string)%type.

(** The loop over [xml_files] (lines 142-145). *)
Fixpoint process_files (self : NFEParser) (xml_files : list string)
  : outcome unit :=
  match xml_files with
  | [] => (Ok tt, self, [])
  | xml_file :: rest =>
      match parse_xml_file xml_file with
      | Raise e => (Raise e, self, [xml_file])
      | Ok nfe_data =>
          let self :=
            if truthy nfe_data
            then match nfe_data with
                 | Some d => mkParser (data self ++ [d])
                 | None => self
                 end
            else self in
          let '(r, self, seen) := process_files self rest in
          (r, self, xml_file :: seen)
      end
  end.

(** Lines 150-159: the numeric columns, then the date column. *)
Definition coerce (df : DataFrame float timestamp)
  : DataFrame float timestamp :=
  let df :=
    fold_left (fun df col =>
                 if mem col (columns df)
                 then assign df col (to_numeric to_float)
                 else df)
              value_columns df in
  if mem "data_emissao" (columns df)
  then assign df "data_emissao"
         (to_datetime to_timestamp (strings_of (column df "data_emissao")))
  else df.

(** [NFEParser.process_folder] *)
Definition process_folder (self : NFEParser) (folder_path : string)
  : outcome (DataFrame float timestamp) :=
  let self := mkParser [] in
  if negb (os_path_exists folder_path) then
    (Raise (Exn ValueError ("Pasta não encontrada: " ++ folder_path)),
     self, [])
  else
    match os_listdir folder_path with
    | Raise e => (Raise e, self, [])
    | Ok entries =>
        let xml_files := map (join folder_path) (filter is_xml entries) in
        match xml_files with
        | [] =>
            (Raise (Exn ValueError
                      ("Nenhum arquivo XML encontrado em: " ++ folder_path)),
             self, [])
        | _ :: _ =>
            let '(r, self, seen) := process_files self xml_files in
            match r with
            | Raise e => (Raise e, self, seen)
            | Ok _ => (Ok (coerce (of_records (data self))), self, seen)
            end
        end
    end.

End World.

Arguments coerce {float timestamp} to_float to_timestamp df.
Arguments process_folder fs etree_parse {float timestamp} to_float
  to_timestamp self folder_path.

End NFe.

(* ===================================================================== *)
(** ** Vocabulary of the statements *)
(* ===================================================================== *)

Module Spec.

Import PyStr ETree Pandas NFe.

(** The namespaced counterpart of a document: every element is put in the
    namespace [uri]; comments and processing instructions have no name. *)
Fixpoint qualify (uri : string) (e : element) : element :=
  match e with
  | Element t a x cs =>
      Element (match t with
               | Tag local => Tag ("{" ++ uri ++ "}" ++ local)
               | other => other
               end) a x (map (qualify uri) cs)
  end.

(** Every node of the tree is an element. *)
Fixpoint elements_only (e : element) : bool :=
  match e with
  | Element (Tag _) _ _ cs => forallb elements_only cs
  | Element _ _ _ _ => false
  end.

(** The first descendant of [e] whose tag is exactly [pat]. *)
Definition first_descendant (pat : string) (e : element) : option element :=
  hd_error (iterdescendants pat e).

(** The trimmed text of a node, empty when there is no node or no text. *)
Definition trimmed_text (elem : option element) : string :=
  match elem with
  | Some elem =>
      match text elem with
      | Some (String _ _ as t) => strip t
      | _ => ""
      end
  | None => ""
  end.

(** The text of the field [tag] of a block. *)
Definition field (block : option element) (tag : string) : string :=
  match block with
  | Some b => trimmed_text (first_descendant tag b)
  | None => ""
  end.

(** A record of a successful extraction has no ["erro"] key. *)
Definition is_success (d : dict) : bool :=
  match dict_lookup d "erro" with
  | Some _ => false
  | None => true
  end.

(** Removal of a literal prefix, as the specification words the access
    key: the prefix is dropped when the string starts with it, and the
    string is otherwise unchanged. *)
Definition strip_prefix (s prefix : string) : string :=
  if startswith s prefix
  then substring (String.length prefix)
                 (String.length s - String.length prefix) s
  else s.

(** The record of a successful extraction, field by field: the blocks are
    the first descendants of the [infNFe] node with the bare names [ide],
    [emit] and [dest]; the six monetary fields are empty. *)
Definition success_record (file_path : string) (nfe_info : element) : dict :=
  let ide := first_descendant "ide" nfe_info in
  let emit := first_descendant "emit" nfe_info in
  let dest := first_descendant "dest" nfe_info in
  [ ("arquivo", VStr (basename file_path));
    ("numero_nf", VStr (field ide "nNF"));
    ("serie", VStr (field ide "serie"));
    ("data_emissao",
     VStr (if String.eqb (field ide "dhEmi") "" then field ide "dEmi"
           else field ide "dhEmi"));
    ("chave_acesso", VStr (remove (get nfe_info "Id" "") "NFe"));
    ("emit_cnpj", VStr (field emit "CNPJ"));
    ("emit_nome", VStr (field emit "xNome"));
    ("emit_fantasia", VStr (field emit "xFant"));
    ("dest_cnpj",
     VStr (if String.eqb (field dest "CNPJ") "" then field dest "CPF"
           else field dest "CNPJ"));
    ("dest_nome", VStr (field dest "xNome"));
    ("valor_produtos", VStr "");
    ("valor_desconto", VStr "");
    ("valor_frete", VStr "");
    ("valor_total", VStr "");
    ("valor_icms", VStr "");
    ("valor_ipi", VStr "");
    ("natureza_operacao", VStr (field ide "natOp"));
    ("tipo_operacao",
     VStr (if String.eqb (field ide "tpNF") "0" then "Entrada" else "Saída"));
    ("qtd_itens",
     VInt (Z.of_nat (List.length (iterdescendants "det" nfe_info)))) ].

Section World.

Variable etree_parse : string -> result element.

(** The extractor hands back a record for [file]. *)
Definition yields_record (file : string) : bool :=
  match parse_xml_file etree_parse file with
  | Ok nfe_data => truthy nfe_data
  | Raise _ => false
  end.

(** The records the loop of [process_folder] keeps for [files]. *)
Definition collected (files : list string) : list dict :=
  flat_map (fun file =>
              match parse_xml_file etree_parse file with
              | Ok (Some ((_ :: _) as d)) => [d]
              | _ => []
              end) files.

End World.

End Spec.

(* ===================================================================== *)
(** ** Sample documents and folders *)
(* ===================================================================== *)

Module Samples.

Import PyStr ETree Pandas NFe Spec.

Definition nfe_uri : string := "http://www.portalfiscal.inf.br/nfe".

Definition leaf (name txt : string) : element :=
  Element (Tag name) [] (Some txt) [].

Definition block (name : string) (cs : list element) : element :=
  Element (Tag name) [] None cs.

(** [<NFe><infNFe Id=id><ide><nNF>100</nNF><tpNF>0</tpNF></ide>
    <emit><xNome>ACME</xNome></emit><det/></infNFe></NFe>] *)
Definition nota_with_id (id : string) : element :=
  block "NFe"
    [Element (Tag "infNFe") [("Id", id)] None
       [block "ide" [leaf "nNF" "100"; leaf "tpNF" "0"];
        block "emit" [leaf "xNome" "ACME"];
        block "det" []]].

(** The document without any namespace, and the same document with every
    element in the NF-e namespace. *)
Definition nota : element := nota_with_id "NFe3519".
Definition nota_nfe : element := qualify nfe_uri nota.

(** [<root><!-- rascunho --></root>] *)
Definition commented : element :=
  Element (Tag "root") [] None [Element Comment [] (Some " rascunho ") []].

(** [<root/>] *)
Definition unrelated : element := block "root" [].

(** A disk with four folders and one plain file. *)
Definition disk (p : string) : option fsnode :=
  if String.eqb p "/notas"
  then Some (Directory ["a.xml"; "B.XML"; "c.xml"; "leia.txt"])
  else if String.eqb p "/vazia" then Some (Directory ["leia.txt"])
  else if String.eqb p "/ignoradas" then Some (Directory ["c.xml"])
  else if String.eqb p "/rascunhos" then Some (Directory ["r.xml"])
  else if String.eqb p "/notas/a.xml" then Some RegularFile
  else None.

(** What the XML parser makes of the files of [disk]: [B.XML] is cut
    short, [r.xml] holds a comment, the others are well formed. *)
Definition parsed (p : string) : result element :=
  if String.eqb p "/notas/a.xml" then Ok nota_nfe
  else if String.eqb p "/notas/B.XML"
  then Raise (Exn XMLSyntaxError
                "Premature end of data in tag NFe line 1, line 1, column 6")
  else if String.eqb p "/rascunhos/r.xml" then Ok commented
  else Ok unrelated.

(** A stand-in for the number parser: unsigned decimal integers. *)
Fixpoint digits (acc : Z) (s : string) : option Z :=
  match s with
  | EmptyString => Some acc
  | String c r =>
      let n := nat_of_ascii c in
      if ((48 <=? n) && (n <=? 57))%nat
      then digits (10 * acc + Z.of_nat (n - 48)) r
      else None
  end.

Definition decimal (s : string) : option Z :=
  match s with
  | EmptyString => None
  | _ => digits 0 s
  end.

(** A stand-in for the date parser that recognises nothing. *)
Definition no_date (col : list string) (s : string) : option Z := None.

End Samples.

(* ===================================================================== *)
(** ** app.py *)
(* ===================================================================== *)

(** The order of [sorted] on strings, and [sorted] itself. *)
Module StringOrder <: TotalLeBool.
Definition t : Type := string.
Definition leb : t -> t -> bool := String.leb.
Definition leb_total : forall x y : t, leb x y = true \/ leb y x = true :=
  String.leb_total.
End StringOrder.

Module StringSort := Sort StringOrder.

Module App.

Import PyStr ETree Pandas NFe.

(** What the page shows after the button is pressed: [st.error],
    [st.warning] or [st.success] with its text. *)
Inductive alert : Type :=
  | st_error (body : string)
  | st_warning (body : string)
  | st_success (body : string).

(** [str(n)] for a length. *)
Definition str_of_len (n : nat) : string :=
  NilEmpty.string_of_uint (Nat.to_uint n).

(** [sorted(l)] on strings. *)
Definition sorted (l : list string) : list string := StringSort.sort l.

(** [s.unique()]: the values in order of first appearance. *)
Fixpoint unique (l : list string) : list string :=
  match l with
  | [] => []
  | x :: r => x :: filter (fun y => negb (String.eqb y x)) (unique r)
  end.

Section Frames.

Variables float timestamp : Type.

Local Abbreviation frame := (DataFrame float timestamp).

(** [df.empty]: no row or no column. *)
Definition empty (df : frame) : bool :=
  match rows df, columns df with
  | [], _ => true
  | _, [] => true
  | _ :: _, _ :: _ => false
  end.

(** One entry of [df[col] == value] for a string [value]: a null or a
    number is never equal to it. *)
Definition cell_is (value : string) (c : cell float timestamp) : bool :=
  match c with
  | Str s => String.eqb s value
  | _ => false
  end.

Definition row_at (row : list (string * cell float timestamp))
  (col : string) : option (cell float timestamp) :=
  option_map snd (List.find (fun kc => String.eqb (fst kc) col) row).

(** [df[df[col] == value]], for a column the table has. *)
Definition select_eq (df : frame) (col value : string) : frame :=
  mkDataFrame (columns df)
    (filter (fun row => match row_at row col with
                        | Some c => cell_is value c
                        | None => false
                        end)
            (rows df)).

(** Lines 113-121: the choices of a filter, for a column of strings and
    nulls: [['Todos'] + sorted(df[col].dropna().unique().tolist())]. *)
Definition filter_options (df : frame) (col : string) : list string :=
  "Todos" :: sorted (unique (strings_of (column df col))).

(** Lines 124-130: the table under the two filters. *)
Definition apply_filters (df : frame) (selected_emit selected_tipo : string)
  : frame :=
  let df_filtered := df in
  let df_filtered :=
    if mem "emit_nome" (columns df) && negb (String.eqb selected_emit "Todos")
    then select_eq df_filtered "emit_nome" selected_emit
    else df_filtered in
  let df_filtered :=
    if mem "tipo_operacao" (columns df)
       && negb (String.eqb selected_tipo "Todos")
    then select_eq df_filtered "tipo_operacao" selected_tipo
    else df_filtered in
  df_filtered.

(** Lines 135-138: the columns shown when the user picks none. *)
Definition default_columns (all_columns : list string) : list string :=
  filter (fun col => mem col all_columns)
    ["numero_nf"; "serie"; "data_emissao"; "emit_nome";
     "dest_nome"; "valor_total"; "tipo_operacao"].

(** [df[cols]]: the listed columns, in that order; a label the table lacks
    is a [KeyError]. *)
Definition project (df : frame) (cols : list string) : result frame :=
  match List.find (fun c => negb (mem c (columns df))) cols with
  | Some c => Raise (Exn KeyError ("'" ++ c ++ "'"))
  | None =>
      Ok (mkDataFrame cols
            (map (fun row =>
                    flat_map (fun c => match row_at row c with
                                       | Some x => [(c, x)]
                                       | None => []
                                       end) cols)
                 (rows df)))
  end.

(** Lines 147-154: the table handed to [st.dataframe]. *)
Definition displayed (df_filtered : frame) (selected_columns : list string)
  : result frame :=
  match selected_columns with
  | _ :: _ => project df_filtered selected_columns
  | [] => Ok df_filtered
  end.

End Frames.

Arguments empty {float timestamp} df.
Arguments cell_is {float timestamp} value c.
Arguments row_at {float timestamp} row col.
Arguments select_eq {float timestamp} df col value.
Arguments filter_options {float timestamp} df col.
Arguments apply_filters {float timestamp} df selected_emit selected_tipo.
Arguments project {float timestamp} df cols.
Arguments displayed {float timestamp} df_filtered selected_columns.

Section World.

Variable fs : string -> option fsnode.
Variable etree_parse : string -> result element.
Variables float timestamp : Type.
Variable to_float : string -> option float.
Variable to_timestamp : list string -> string -> option timestamp.

(** [os.path.isdir] *)
Definition os_path_isdir (p : string) : bool :=
  match fs p with
  | Some (Directory _) => true
  | _ => false
  end.

(** Lines 55-77: the run of the script in which the button was pressed.
    [df_nfe] is [st.session_state.df_nfe], [None] until a table is kept;
    the result is the alert shown and the session state afterwards. *)
Definition on_process (folder_path : string)
  (df_nfe : option (DataFrame float timestamp))
  : alert * option (DataFrame float timestamp) :=
  if String.eqb folder_path "" then
    (st_error "⚠️ Por favor, insira o caminho da pasta!", df_nfe)
  else if negb (os_path_exists fs folder_path) then
    (st_error ("⚠️ Pasta não encontrada: " ++ folder_path), df_nfe)
  else if negb (os_path_isdir folder_path) then
    (st_error ("⚠️ O caminho informado não é uma pasta: " ++ folder_path),
     df_nfe)
  else
    let parser := __init__ in
    match fst (fst (process_folder fs etree_parse to_float to_timestamp
                      parser folder_path)) with
    | Ok df =>
        if empty df then
          (st_warning "⚠️ Nenhum dado foi extraído dos arquivos XML.", df_nfe)
        else
          (st_success ("✅ " ++ str_of_len (len df)
                       ++ " nota(s) fiscal(is) processada(s) com sucesso!"),
           Some df)
    | Raise e =>
        if exn_class_eqb (exn_cls e) ValueError then
          (st_error ("⚠️ Erro: " ++ exn_str e), df_nfe)
        else
          (st_error ("⚠️ Erro ao processar arquivos: " ++ exn_str e), df_nfe)
    end.

End World.

Arguments on_process fs etree_parse {float timestamp} to_float to_timestamp
  folder_path df_nfe.

End App.

(* ===================================================================== *)
(** ** Names, documents and folders of the further statements *)
(* ===================================================================== *)

Module Props.

Import PyStr ETree Pandas NFe Spec.

Fixpoint all_chars (p : ascii -> bool) (s : string) : bool :=
  match s with
  | EmptyString => true
  | String c r => p c && all_chars p r
  end.

(** The last character of a string is [c]. *)
Fixpoint ends_in (c : ascii) (s : string) : bool :=
  match s with
  | EmptyString => false
  | String a EmptyString => Ascii.eqb a c
  | String _ r => ends_in c r
  end.

(** A character that a name of a path may hold: no slash, no colon, and
    none of the characters that belong to other tokens. *)
Definition name_char (c : ascii) : bool :=
  negb (outside_fragment c) && negb (Ascii.eqb c "/")
  && negb (Ascii.eqb c ":").

(** A tag argument that is a bare name: not empty, made of name
    characters, and starting with neither a dot nor a star. *)
Definition plain_name (s : string) : bool :=
  match s with
  | EmptyString => false
  | String c r =>
      name_char c && negb (Ascii.eqb c ".") && negb (Ascii.eqb c "*")
      && all_chars name_char r
  end.

(** No brace in the string. *)
Definition brace_free (s : string) : bool :=
  all_chars (fun c => negb (Ascii.eqb c "{") && negb (Ascii.eqb c "}")) s.

(** No slash in the string, as for every name [os.listdir] returns. *)
Definition slash_free (s : string) : bool :=
  all_chars (fun c => negb (Ascii.eqb c "/")) s.

(** A document outside every namespace: elements only, whose tags hold no
    brace. *)
Fixpoint plain_document (e : element) : bool :=
  match e with
  | Element (Tag name) _ _ cs => brace_free name && forallb plain_document cs
  | Element _ _ _ _ => false
  end.

Section World.

Variable etree_parse : string -> result element.

(** Every file of the list is rejected by the XML parser. *)
Definition all_malformed (files : list string) : bool :=
  forallb (fun f => match etree_parse f with
                    | Raise _ => true
                    | Ok _ => false
                    end) files.

(** The row of the table for a file the XML parser rejects. *)
Definition error_row {float timestamp : Type} (file : string)
  : list (string * cell float timestamp) :=
  [("arquivo", Str (basename file));
   ("erro", Str (match etree_parse file with
                 | Raise e => exn_str e
                 | Ok _ => ""
                 end))].

End World.

End Props.

(** Further sample documents and folders. *)
Module Cases.

Import PyStr ETree Pandas NFe Spec Samples.

(** [<NFe><infNFe Id="NFe3519"><ide><nNF>7</nNF><dhEmi>   </dhEmi>
    <dEmi>2010-01-31</dEmi></ide><dest><CPF>123</CPF></dest>
    <total><ICMSTot><vNF>150.50</vNF></ICMSTot></total></infNFe></NFe>] *)
Definition nota_total : element :=
  block "NFe"
    [Element (Tag "infNFe") [("Id", "NFe3519")] None
       [block "ide" [leaf "nNF" "7"; leaf "dhEmi" "   ";
                     leaf "dEmi" "2010-01-31"];
        block "dest" [leaf "CPF" "123"];
        block "total" [block "ICMSTot" [leaf "vNF" "150.50"]]]].

(** The same document without its [total] block. *)
Definition nota_antiga : element :=
  block "NFe"
    [Element (Tag "infNFe") [("Id", "NFe3519")] None
       [block "ide" [leaf "nNF" "7"; leaf "dhEmi" "   ";
                     leaf "dEmi" "2010-01-31"; leaf "tpNF" "1"];
        block "emit" [leaf "CNPJ" "00123456000199"; leaf "xNome" "ACME"];
        block "dest" [leaf "CPF" "123"]]].

(** A disk whose folder [/lote] holds two broken files and a note, and
    whose folder [/misto] holds an old invoice and a broken file. *)
Definition disk (p : string) : option fsnode :=
  if String.eqb p "/lote"
  then Some (Directory ["x.xml"; "y.XML"; "leia.txt"])
  else if String.eqb p "/misto"
  then Some (Directory ["n.xml"; "x.xml"])
  else if String.eqb p "/misto/n.xml" then Some RegularFile
  else None.

Definition parsed (p : string) : result element :=
  if String.eqb p "/misto/n.xml" then Ok nota_antiga
  else if String.eqb p "/t.xml" then Ok nota_total
  else if String.eqb p "/outro.xml" then Ok (qualify "urn:outro" nota_antiga)
  else Raise (Exn XMLSyntaxError "Document is empty, line 1, column 1").

(** A date parser that reads nothing but [2010-01-31]. *)
Definition one_date (col : list string) (s : string) : option Z :=
  if String.eqb s "2010-01-31" then Some 20100131%Z else None.

End Cases.

(* ===================================================================== *)
(** ** ElementPath on the paths of the parser *)
(* ===================================================================== *)

Import PyStr ETree Pandas NFe Spec.

Section ElementPathFacts.

(** A path [.//name] selects the descendants called [name]. *)
Lemma find_self_descendant (e : element) (path pat : string) ns :
  build_path_iterator path ns = Ok [prepare_self; prepare_descendant pat] ->
  find e path ns = Ok (first_descendant pat e).
Proof.
  intros Hb. unfold find, iterfind. rewrite Hb. cbn.
  now rewrite app_nil_r.
Qed.

Lemma findall_self_descendant (e : element) (path pat : string) ns :
  build_path_iterator path ns = Ok [prepare_self; prepare_descendant pat] ->
  findall e path ns = Ok (iterdescendants pat e).
Proof.
  intros Hb. unfold findall, iterfind. rewrite Hb. cbn.
  now rewrite app_nil_r.
Qed.

(** [_get_text] on a path of that shape cannot fail. *)
Lemma get_text_field (parent : option element) (tag : string) :
  build_path_iterator (".//" ++ tag) None
    = Ok [prepare_self; prepare_descendant tag] ->
  _get_text parent tag "" = Ok (field parent tag).
Proof.
  intros Hb. destruct parent as [p|]; [|reflexivity].
  unfold _get_text. rewrite (find_self_descendant p _ tag None Hb).
  cbn. unfold first_descendant.
  destruct (hd_error (iterdescendants tag p)) as [el|]; [|reflexivity].
  cbn. destruct (text el) as [[|c t]|]; reflexivity.
Qed.

(** A tag argument that is itself a path, as the six monetary fields pass
    it, makes [.//.//name]: [//] is followed by [.], which the path
    compiler rejects. *)
Lemma get_text_nested_path (parent : element) (tag : string) :
  build_path_iterator (".//" ++ tag) None
    = Raise (Exn SyntaxError "invalid descendant") ->
  _get_text (Some parent) tag "" = Raise (Exn SyntaxError "invalid descendant").
Proof.
  intros Hb. unfold _get_text, find, iterfind. now rewrite Hb.
Qed.

End ElementPathFacts.

Example path_infNFe_namespaced :
  build_path_iterator ".//nfe:infNFe" (Some NAMESPACES)
  = Ok [prepare_self;
        prepare_descendant "{http://www.portalfiscal.inf.br/nfe}infNFe"].
Proof. reflexivity. Qed.

Example path_vNF_rejected :
  build_path_iterator (".//" ++ ".//vNF") None
  = Raise (Exn SyntaxError "invalid descendant").
Proof. reflexivity. Qed.

Example path_unknown_prefix :
  build_path_iterator ".//nfe:infNFe" None
  = Raise (Exn SyntaxError "prefix 'nfe' not found in prefix map").
Proof. reflexivity. Qed.

(* ===================================================================== *)
(** ** The extractor *)
(* ===================================================================== *)

Ltac field_step tag :=
  rewrite (get_text_field _ tag) by reflexivity; cbn [bind].

(** [extract_fields] in closed form: it fails exactly when the [infNFe]
    node has a descendant called [total], because the monetary fields are
    then looked up through a path that does not compile. *)
Lemma extract_fields_spec (file_path : string) (nfe_info : element) :
  extract_fields file_path nfe_info =
  match first_descendant "total" nfe_info with
  | None => Ok (success_record file_path nfe_info)
  | Some _ => Raise (Exn SyntaxError "invalid descendant")
  end.
Proof.
  unfold extract_fields.
  rewrite (find_self_descendant nfe_info ".//ide" "ide") by reflexivity.
  rewrite (find_self_descendant nfe_info ".//emit" "emit") by reflexivity.
  rewrite (find_self_descendant nfe_info ".//dest" "dest") by reflexivity.
  rewrite (find_self_descendant nfe_info ".//total" "total") by reflexivity.
  cbn [bind].
  field_step "nNF". field_step "serie". field_step "dhEmi".
  rewrite (get_text_field _ "dEmi") by reflexivity.
  assert (Hor : forall a b : string,
             or_else a (Ok b) = Ok (if String.eqb a "" then b else a)).
  { intros a b. unfold or_else. now destruct (String.eqb a ""). }
  rewrite Hor. cbn [bind].
  field_step "CNPJ". field_step "xNome". field_step "xFant".
  field_step "CNPJ".
  rewrite (get_text_field _ "CPF") by reflexivity.
  rewrite Hor. cbn [bind].
  field_step "xNome".
  destruct (first_descendant "total" nfe_info) as [total|].
  - now rewrite (get_text_nested_path total ".//vProd") by reflexivity.
  - cbn [_get_text bind].
    field_step "natOp". field_step "tpNF".
    rewrite (findall_self_descendant nfe_info ".//det" "det") by reflexivity.
    reflexivity.
Qed.

Section Extractor.

Variable etree_parse : string -> result element.

(** [parse_xml_file] in closed form. *)
Lemma parse_xml_file_spec (file_path : string) :
  parse_xml_file etree_parse file_path =
  Ok (match etree_parse file_path with
      | Raise e => Some (error_record file_path e)
      | Ok root =>
          match locate_infNFe root with
          | Raise e => Some (error_record file_path e)
          | Ok None => None
          | Ok (Some nfe_info) =>
              match first_descendant "total" nfe_info with
              | None => Some (success_record file_path nfe_info)
              | Some _ =>
                  Some (error_record file_path
                          (Exn SyntaxError "invalid descendant"))
              end
          end
      end).
Proof.
  unfold parse_xml_file, parse_xml_file_try.
  destruct (etree_parse file_path) as [root|e]; [|reflexivity].
  cbn [bind]. destruct (locate_infNFe root) as [[nfe_info|]|e];
    [|reflexivity|reflexivity].
  cbn [bind]. rewrite extract_fields_spec.
  now destruct (first_descendant "total" nfe_info).
Qed.

Lemma parse_xml_file_returns (file_path : string) :
  exists nfe_data, parse_xml_file etree_parse file_path = Ok nfe_data.
Proof. rewrite parse_xml_file_spec. eauto. Qed.

(** A file without [infNFe] node gives [None], and the loop keeps nothing
    for it. *)
Lemma silent_skip (file_path : string) (root : element) :
  etree_parse file_path = Ok root ->
  locate_infNFe root = Ok None ->
  parse_xml_file etree_parse file_path = Ok None /\
  collected etree_parse [file_path] = [].
Proof.
  intros Hp Hl. unfold collected. cbn [flat_map].
  rewrite parse_xml_file_spec, Hp, Hl. now split.
Qed.

(** The loop of [process_folder] visits every file and keeps the records
    handed back. *)
Lemma process_files_spec (files : list string) :
  forall self,
    process_files etree_parse self files =
    (Ok tt, mkParser (data self ++ collected etree_parse files), files).
Proof.
  induction files as [|f files IH]; intros self.
  - cbn. rewrite app_nil_r. now destruct self.
  - cbn [process_files]. unfold collected. cbn [flat_map].
    fold (collected etree_parse files).
    destruct (parse_xml_file_returns f) as [nfe_data ->].
    rewrite IH. destruct nfe_data as [[|kv d]|]; cbn.
    + reflexivity.
    + now rewrite <- app_assoc.
    + reflexivity.
Qed.

Lemma collected_length (files : list string) :
  List.length (collected etree_parse files) =
  List.length (filter (yields_record etree_parse) files).
Proof.
  induction files as [|f files IH]; [reflexivity|].
  unfold collected, yields_record in *. cbn [flat_map filter].
  rewrite length_app, IH.
  destruct (parse_xml_file etree_parse f) as [[[|kv d]|]|e]; reflexivity.
Qed.

End Extractor.

(* ===================================================================== *)
(** ** The table *)
(* ===================================================================== *)

Section Table.

Variables float timestamp : Type.
Variable to_float : string -> option float.
Variable to_timestamp : list string -> string -> option timestamp.

Local Abbreviation frame := (DataFrame float timestamp).

Lemma len_assign (df : frame) col f : len (assign df col f) = len df.
Proof. unfold len, assign. cbn. apply length_map. Qed.

Lemma columns_assign (df : frame) col f :
  columns (assign df col f) = columns df.
Proof. reflexivity. Qed.

Lemma len_of_records (records : list dict) :
  len (of_records records : frame) = List.length records.
Proof. unfold len, of_records. cbn. apply length_map. Qed.

Lemma len_numeric_pass (cols : list string) :
  forall df : frame,
    len (fold_left (fun df col =>
                      if mem col (columns df)
                      then assign df col (to_numeric to_float)
                      else df) cols df) = len df.
Proof.
  induction cols as [|c cols IH]; intros df; [reflexivity|].
  cbn [fold_left]. rewrite IH.
  destruct (mem c (columns df)); [apply len_assign|reflexivity].
Qed.

Lemma len_coerce (df : frame) :
  len (coerce to_float to_timestamp df) = len df.
Proof.
  unfold coerce.
  match goal with |- context [if ?b then _ else _] => destruct b end.
  - rewrite len_assign. apply len_numeric_pass.
  - apply len_numeric_pass.
Qed.

(** *** Cells *)

Lemma mem_In (k : string) (l : list string) : mem k l = true <-> In k l.
Proof.
  unfold mem. rewrite existsb_exists. split.
  - intros (x & Hx & He). apply String.eqb_eq in He. now subst.
  - intros H. exists k. split; [assumption|apply String.eqb_refl].
Qed.

Lemma mem_app (k : string) (l1 l2 : list string) :
  mem k (l1 ++ l2) = mem k l1 || mem k l2.
Proof. unfold mem. apply existsb_app. Qed.

Lemma find_labelled {A : Type} (g : string -> A) (col : string) :
  forall cols,
    List.find (fun kc : string * A => String.eqb (fst kc) col)
              (map (fun c => (c, g c)) cols)
    = if mem col cols then Some (col, g col) else None.
Proof.
  induction cols as [|c cols IH]; [reflexivity|].
  cbn. rewrite (String.eqb_sym col c).
  destruct (String.eqb_spec c col) as [->|_]; [reflexivity|].
  cbn. exact IH.
Qed.

Lemma find_reassigned (c col : string) (f : cell float timestamp -> _) :
  forall row : list (string * cell float timestamp),
    List.find (fun kc => String.eqb (fst kc) col)
      (map (fun kc : string * cell float timestamp =>
              if String.eqb (fst kc) c then (fst kc, f (snd kc)) else kc)
           row)
    = option_map
        (fun kc => if String.eqb col c then (fst kc, f (snd kc)) else kc)
        (List.find (fun kc => String.eqb (fst kc) col) row).
Proof.
  induction row as [|[k x] row IH]; [reflexivity|].
  cbn. destruct (String.eqb_spec k col) as [->|Hk].
  - destruct (String.eqb col c); cbn; now rewrite String.eqb_refl.
  - destruct (String.eqb k c); cbn;
      (destruct (String.eqb_spec k col); [contradiction|]); exact IH.
Qed.

Lemma at_assign (df : frame) (c col : string) f (i : nat) :
  at_ (assign df c f) i col
  = if String.eqb col c then option_map f (at_ df i col) else at_ df i col.
Proof.
  unfold at_, assign. cbn [rows]. rewrite nth_error_map.
  destruct (nth_error (rows df) i) as [row|]; cbn.
  - rewrite find_reassigned.
    destruct (List.find _ row) as [[k x]|]; cbn;
      destruct (String.eqb col c); reflexivity.
  - now destruct (String.eqb col c).
Qed.

Lemma at_numeric_pass (col : string) (i : nat) (cols : list string) :
  NoDup cols ->
  forall df : frame,
    at_ (fold_left (fun df c =>
                      if mem c (columns df)
                      then assign df c (to_numeric to_float)
                      else df) cols df) i col
    = if mem col cols && mem col (columns df)
      then option_map (to_numeric to_float) (at_ df i col)
      else at_ df i col.
Proof.
  induction 1 as [|c cols Hc _ IH]; intros df; [reflexivity|].
  cbn [fold_left]. rewrite IH.
  assert (Hcols : columns (if mem c (columns df)
                           then assign df c (to_numeric to_float) else df)
                  = columns df) by now destruct (mem c (columns df)).
  rewrite Hcols. cbn [mem existsb]. fold (mem col cols).
  destruct (String.eqb_spec col c) as [->|Hne].
  - assert (Hn : mem c cols = false).
    { destruct (mem c cols) eqn:E; [|reflexivity].
      apply mem_In in E. contradiction. }
    rewrite Hn. cbn.
    destruct (mem c (columns df)); [|reflexivity].
    rewrite at_assign. now rewrite String.eqb_refl.
  - cbn.
    assert (Hat : at_ (if mem c (columns df)
                       then assign df c (to_numeric to_float) else df) i col
                  = at_ df i col).
    { destruct (mem c (columns df)); [|reflexivity].
      rewrite at_assign. destruct (String.eqb_spec col c); [contradiction|].
      reflexivity. }
    now rewrite Hat.
Qed.

Lemma mem_add_keys (k : string) (ks : list string) :
  forall seen,
    mem k (fold_left (fun acc k' => if mem k' acc then acc
                                    else (acc ++ [k'])%list) ks seen)
    = mem k seen || mem k ks.
Proof.
  induction ks as [|k' ks IH]; intros seen.
  - cbn. now rewrite orb_false_r.
  - cbn [fold_left]. rewrite IH. cbn [mem existsb]. fold (mem k ks).
    destruct (mem k' seen) eqn:Hk'.
    + destruct (String.eqb_spec k k') as [->|_]; [|reflexivity].
      now rewrite Hk'.
    + rewrite mem_app. cbn. rewrite orb_false_r. now rewrite orb_assoc.
Qed.

Lemma mem_union_keys_seen (k : string) (records : list dict) :
  forall seen, mem k seen = true -> mem k (union_keys seen records) = true.
Proof.
  induction records as [|d records IH]; intros seen Hs; [assumption|].
  cbn. apply IH. rewrite mem_add_keys. now rewrite Hs.
Qed.

Lemma mem_union_keys (k : string) (records : list dict) (d : dict) :
  In d records -> mem k (map fst d) = true ->
  forall seen, mem k (union_keys seen records) = true.
Proof.
  induction records as [|d' records IH]; intros Hin Hk seen; [destruct Hin|].
  cbn. destruct Hin as [->|Hin].
  - apply mem_union_keys_seen. rewrite mem_add_keys, Hk. apply orb_true_r.
  - now apply IH.
Qed.

Lemma dict_lookup_mem (d : dict) (k : string) (v : value) :
  dict_lookup d k = Some v -> mem k (map fst d) = true.
Proof.
  unfold dict_lookup. induction d as [|[k' v'] d IH]; [discriminate|].
  cbn. rewrite (String.eqb_sym k k').
  destruct (String.eqb k' k); [reflexivity|exact IH].
Qed.

Lemma at_of_records (records : list dict) (i : nat) (d : dict) (col : string) :
  nth_error records i = Some d ->
  at_ (of_records records : frame) i col
  = if mem col (columns (of_records records : frame))
    then Some (match dict_lookup d col with
               | Some v => cell_of_value v
               | None => NaN
               end)
    else None.
Proof.
  intros Hd. unfold at_, of_records. cbn [rows columns].
  rewrite nth_error_map, Hd. cbn [option_map].
  rewrite (find_labelled
             (fun c => match dict_lookup d c with
                       | Some v => cell_of_value v
                       | None => NaN
                       end)).
  now destruct (mem col (union_keys [] records)).
Qed.

Lemma columns_numeric_pass (cols : list string) :
  forall df : frame,
    columns (fold_left (fun df c =>
                          if mem c (columns df)
                          then assign df c (to_numeric to_float)
                          else df) cols df) = columns df.
Proof.
  induction cols as [|c cols IH]; intros df; [reflexivity|].
  cbn [fold_left]. rewrite IH. now destruct (mem c (columns df)).
Qed.

Lemma columns_coerce (df : frame) :
  columns (coerce to_float to_timestamp df) = columns df.
Proof.
  unfold coerce.
  match goal with |- context [if ?b then _ else _] => destruct b end;
    cbn [assign columns]; apply columns_numeric_pass.
Qed.

Lemma value_columns_NoDup : NoDup value_columns.
Proof.
  unfold value_columns.
  repeat (constructor; [cbn; intuition discriminate|]). constructor.
Qed.

(** A monetary entry after the two passes of [coerce]: the numeric pass
    has been applied to it once, the date pass not at all. *)
Lemma at_coerce_monetary (df : frame) (i : nat) (col : string) :
  In col value_columns ->
  at_ (coerce to_float to_timestamp df) i col
  = if mem col (columns df)
    then option_map (to_numeric to_float) (at_ df i col)
    else at_ df i col.
Proof.
  intros Hcol.
  assert (Hne : String.eqb col "data_emissao" = false).
  { cbn in Hcol. decompose [or] Hcol; subst; try reflexivity. contradiction. }
  assert (Hm : mem col value_columns = true) by now apply mem_In.
  unfold coerce.
  match goal with |- context [if ?b then _ else _] => destruct b end.
  - rewrite at_assign, Hne.
    rewrite (at_numeric_pass col i value_columns value_columns_NoDup).
    now rewrite Hm.
  - rewrite (at_numeric_pass col i value_columns value_columns_NoDup).
    now rewrite Hm.
Qed.

End Table.

(* ===================================================================== *)
(** ** The folder *)
(* ===================================================================== *)

Section Folder.

Variable fs : string -> option fsnode.
Variable etree_parse : string -> result element.
Variables float timestamp : Type.
Variable to_float : string -> option float.
Variable to_timestamp : list string -> string -> option timestamp.

Local Abbreviation run := (process_folder fs etree_parse to_float to_timestamp).

(** [process_folder] in closed form. *)
Lemma process_folder_spec (self : NFEParser) (folder_path : string) :
  run self folder_path =
  match fs folder_path with
  | None =>
      (Raise (Exn ValueError ("Pasta não encontrada: " ++ folder_path)),
       mkParser [], [])
  | Some RegularFile =>
      (Raise (Exn NotADirectoryError
                ("[Errno 20] Not a directory: '" ++ folder_path ++ "'")),
       mkParser [], [])
  | Some (Directory entries) =>
      let xml_files := map (join folder_path) (filter is_xml entries) in
      match xml_files with
      | [] =>
          (Raise (Exn ValueError
                    ("Nenhum arquivo XML encontrado em: " ++ folder_path)),
           mkParser [], [])
      | _ :: _ =>
          (Ok (coerce to_float to_timestamp
                 (of_records (collected etree_parse xml_files))),
           mkParser (collected etree_parse xml_files), xml_files)
      end
  end.
Proof.
  unfold process_folder, os_path_exists, os_listdir.
  destruct (fs folder_path) as [[|entries]|]; cbn [negb]; try reflexivity.
  cbv zeta.
  destruct (map (join folder_path) (filter is_xml entries)) as [|f files] eqn:E;
    [reflexivity|].
  now rewrite process_files_spec.
Qed.


End Folder.

(* ===================================================================== *)
(** ** Error handling of the extractor and of the folder *)
(* ===================================================================== *)


(** The three ways the [try] block fails: the XML parser raises, the
    namespace loop meets a comment, a monetary field is looked up. *)
Example try_fails_in_parser :
  parse_xml_file_try Samples.parsed "/notas/B.XML"
  = Raise (Exn XMLSyntaxError
             "Premature end of data in tag NFe line 1, line 1, column 6").
Proof. reflexivity. Qed.

Example try_fails_in_namespace_loop :
  parse_xml_file_try Samples.parsed "/rascunhos/r.xml"
  = Raise (Exn AttributeError no_startswith).
Proof. reflexivity. Qed.

Example try_fails_in_monetary_field :
  parse_xml_file_try
    (fun _ => Ok (Samples.block "NFe"
                    [Samples.block "infNFe"
                       [Samples.block "total"
                          [Samples.leaf "vNF" "150.50"]]]))
    "/notas/t.xml"
  = Raise (Exn SyntaxError "invalid descendant").
Proof. reflexivity. Qed.

(** C1. For every input file path, [parse_xml_file] returns and never
    raises: when the body of its [try] block fails with an exception [e],
    the value returned is the record holding exactly the base name of the
    file under ["arquivo"] and [str(e)] under ["erro"]; when the body
    returns, its value is returned unchanged. *)
Theorem parse_xml_file_never_raises :
  forall (etree_parse : string -> result element) (file_path : string),
  exists nfe_data,
    parse_xml_file etree_parse file_path = Ok nfe_data /\
    (forall e,
        parse_xml_file_try etree_parse file_path = Raise e ->
        nfe_data = Some [("arquivo", VStr (basename file_path));
                         ("erro", VStr (exn_str e))]) /\
    (forall r,
        parse_xml_file_try etree_parse file_path = Ok r -> nfe_data = r).
Proof.
  intros etree_parse file_path. unfold parse_xml_file.
  destruct (parse_xml_file_try etree_parse file_path) as [r|e]; cbn.
  - exists r. repeat split; congruence.
  - exists (Some (error_record file_path e)). repeat split.
    + intros e' [= <-]. reflexivity.
    + discriminate.
Qed.

Example is_xml_upper : is_xml "NOTA.XML" = true.
Proof. reflexivity. Qed.

Example is_xml_mixed : is_xml "nota.Xml" = true.
Proof. reflexivity. Qed.

Example is_xml_backup : is_xml "nota.xml.bak" = false.
Proof. reflexivity. Qed.

Example is_xml_no_dot : is_xml "notaxml" = false.
Proof. reflexivity. Qed.

(** The test on a name looks at its lower-cased form only. *)
Lemma is_xml_case_insensitive (f g : string) :
  lower f = lower g -> is_xml f = is_xml g.
Proof. unfold is_xml. now intros ->. Qed.


Example folder_missing :
  process_folder Samples.disk Samples.parsed Samples.decimal Samples.no_date
    __init__ "/nenhuma"
  = (Raise (Exn ValueError "Pasta não encontrada: /nenhuma"),
     mkParser [], []).
Proof. reflexivity. Qed.

Example folder_without_xml :
  process_folder Samples.disk Samples.parsed Samples.decimal Samples.no_date
    __init__ "/vazia"
  = (Raise (Exn ValueError "Nenhum arquivo XML encontrado em: /vazia"),
     mkParser [], []).
Proof. reflexivity. Qed.




(** C10. [process_folder] starts from an empty buffer whatever the parser
    object holds: the outcome of a call is the same after any earlier call
    as on a fresh object, the same for any two states of the object, and
    the buffer after a call holds the records of the files of that folder
    only. *)
Theorem process_folder_resets_buffer :
  forall (fs0 fs : string -> option fsnode)
         (etree_parse0 etree_parse : string -> result element)
         (float timestamp : Type)
         (to_float : string -> option float)
         (to_timestamp : list string -> string -> option timestamp)
         (self self2 : NFEParser) (earlier folder_path : string),
  let after_earlier :=
    snd (fst (process_folder fs0 etree_parse0 to_float to_timestamp
                self earlier)) in
  process_folder fs etree_parse to_float to_timestamp
    after_earlier folder_path
  = process_folder fs etree_parse to_float to_timestamp __init__ folder_path
  /\
  process_folder fs etree_parse to_float to_timestamp self folder_path
  = process_folder fs etree_parse to_float to_timestamp self2 folder_path
  /\
  (match os_listdir fs folder_path with
   | Ok entries =>
       data (snd (fst (process_folder fs etree_parse to_float to_timestamp
                         self folder_path)))
       = collected etree_parse
           (map (join folder_path) (filter is_xml entries))
   | Raise _ => True
   end).
Proof.
  intros. repeat split.
  rewrite process_folder_spec. unfold os_listdir.
  destruct (fs folder_path) as [[|entries]|]; try exact I.
  cbv zeta.
  now destruct (map (join folder_path) (filter is_xml entries)).
Qed.

(* ===================================================================== *)
(** ** Rows of the table *)
(* ===================================================================== *)

Lemma filter_length_bound {A : Type} (f : A -> bool) (l : list A) :
  List.length (filter f l) <= List.length l.
Proof.
  induction l as [|a l IH]; [apply le_n|].
  cbn. destruct (f a); cbn; lia.
Qed.

(** C5, as the claim states it, fails: the folder [/ignoradas] lists one
    XML file, which has no [infNFe] node, and the table has no row. *)
Lemma row_count_below_file_count :
  exists entries df self' seen,
    Samples.disk "/ignoradas" = Some (Directory entries) /\
    process_folder Samples.disk Samples.parsed Samples.decimal
      Samples.no_date __init__ "/ignoradas" = (Ok df, self', seen) /\
    List.length (filter is_xml entries) = 1 /\
    len df = 0 /\
    len df <> List.length (filter is_xml entries).
Proof.
  eexists. eexists. eexists. eexists.
  split; [reflexivity|]. split; [reflexivity|].
  split; [reflexivity|]. split; [reflexivity|]. discriminate.
Qed.

(** C5, amended. When [process_folder] returns a table, every XML file of
    the folder has been handed to the extractor, and the number of rows is
    the number of those files for which the extractor handed back a
    record; it is at most the number of XML files, and equal to it when no
    file is skipped. *)
Theorem row_count_is_records_kept :
  forall (fs : string -> option fsnode)
         (etree_parse : string -> result element)
         (float timestamp : Type)
         (to_float : string -> option float)
         (to_timestamp : list string -> string -> option timestamp)
         (self self' : NFEParser) (folder_path : string)
         (df : DataFrame float timestamp) (seen : list string),
  process_folder fs etree_parse to_float to_timestamp self folder_path
  = (Ok df, self', seen) ->
  exists entries,
    os_listdir fs folder_path = Ok entries /\
    let xml_files := map (join folder_path) (filter is_xml entries) in
    seen = xml_files /\
    len df = List.length (filter (yields_record etree_parse) xml_files) /\
    len df <= List.length xml_files /\
    (forallb (yields_record etree_parse) xml_files = true ->
     len df = List.length xml_files).
Proof.
  intros * Hrun. rewrite process_folder_spec in Hrun. unfold os_listdir.
  destruct (fs folder_path) as [[|entries]|]; try discriminate Hrun.
  exists entries. split; [reflexivity|]. cbv zeta in *.
  destruct (map (join folder_path) (filter is_xml entries)) as [|f files];
    [discriminate Hrun|].
  set (xml_files := f :: files) in *.
  set (records := collected etree_parse xml_files) in *.
  injection Hrun as <- _ <-.
  rewrite len_coerce, len_of_records. subst records.
  rewrite collected_length.
  repeat split.
  - apply filter_length_bound.
  - intros Hall. now rewrite (forallb_filter_id _ _ Hall).
Qed.

Lemma row_count_is_records_kept_witness :
  exists df self' seen,
    process_folder Samples.disk Samples.parsed Samples.decimal
      Samples.no_date __init__ "/notas" = (Ok df, self', seen) /\
    seen = ["/notas/a.xml"; "/notas/B.XML"; "/notas/c.xml"] /\
    len df = 2.
Proof.
  eexists. eexists. eexists. split; [reflexivity|].
  destruct (row_count_is_records_kept Samples.disk Samples.parsed Z Z
              Samples.decimal Samples.no_date __init__ _ "/notas" _ _
              eq_refl)
    as (entries & Hls & Hseen & Hlen & _).
  injection Hls as <-. split; [reflexivity|]. exact Hlen.
Defined.

(* ===================================================================== *)
(** ** Monetary columns *)
(* ===================================================================== *)



(* ===================================================================== *)
(** ** Access key *)
(* ===================================================================== *)

(** Without an occurrence of [old] nothing is removed. *)
Lemma remove_no_occurrence (old : string) :
  forall s, contains s old = false -> remove s old = s.
Proof.
  unfold remove. induction s as [|c s IH]; intros Hc; [reflexivity|].
  cbn [contains] in Hc. apply orb_false_iff in Hc as [Hp Hc].
  cbn [remove_from]. rewrite Hp. now rewrite IH.
Qed.

(** A leading [NFe] is removed, and the removal goes on behind it. *)
Lemma remove_leading_NFe (rest : string) :
  remove ("NFe" ++ rest) "NFe" = remove rest "NFe".
Proof. destruct rest; reflexivity. Qed.

Lemma get_absent (e : element) (key default : string) :
  (forall v, ~ In (key, v) (attrib e)) -> get e key default = default.
Proof.
  unfold get. intros Habs.
  destruct (List.find (fun kv => String.eqb (fst kv) key) (attrib e))
    as [[k v]|] eqn:E; [|reflexivity].
  apply find_some in E as [Hin Hk]. cbn in Hk.
  apply String.eqb_eq in Hk. subst k. now apply Habs in Hin.
Qed.

Lemma error_record_not_success (file_path : string) (e : exn) :
  is_success (error_record file_path e) = false.
Proof. reflexivity. Qed.

(** A successful record is the [success_record] of the [infNFe] node that
    [locate_infNFe] found, and that node has no [total] block below it. *)
Lemma success_inversion (etree_parse : string -> result element)
  (file_path : string) (d : dict) :
  parse_xml_file etree_parse file_path = Ok (Some d) ->
  is_success d = true ->
  exists root nfe_info,
    etree_parse file_path = Ok root /\
    locate_infNFe root = Ok (Some nfe_info) /\
    first_descendant "total" nfe_info = None /\
    d = success_record file_path nfe_info.
Proof.
  intros Hp Hs. rewrite parse_xml_file_spec in Hp.
  destruct (etree_parse file_path) as [root|e] eqn:Hroot.
  - destruct (locate_infNFe root) as [[nfe_info|]|e] eqn:Hloc.
    + destruct (first_descendant "total" nfe_info) eqn:Ht.
      * injection Hp as <-. discriminate Hs.
      * injection Hp as <-. now exists root, nfe_info.
    + discriminate Hp.
    + injection Hp as <-. discriminate Hs.
  - injection Hp as <-. discriminate Hs.
Qed.

(** C8, as the claim states it, fails: with [Id="NFe35NFe19"] the key is
    [3519], while dropping the leading [NFe] alone leaves [35NFe19]. *)
Lemma access_key_inner_occurrence_removed :
  exists nfe_info d,
    locate_infNFe (Samples.nota_with_id "NFe35NFe19") = Ok (Some nfe_info) /\
    get nfe_info "Id" "" = "NFe35NFe19" /\
    parse_xml_file (fun _ => Ok (Samples.nota_with_id "NFe35NFe19"))
      "/notas/k.xml" = Ok (Some d) /\
    is_success d = true /\
    dict_lookup d "chave_acesso" = Some (VStr "3519") /\
    strip_prefix "NFe35NFe19" "NFe" = "35NFe19" /\
    dict_lookup d "chave_acesso"
    <> Some (VStr (strip_prefix (get nfe_info "Id" "") "NFe")).
Proof.
  eexists. eexists. split; [reflexivity|]. split; [reflexivity|].
  split; [reflexivity|]. split; [reflexivity|]. split; [reflexivity|].
  split; [reflexivity|]. discriminate.
Qed.

(** C8, amended. In every successful record the access key is the [Id]
    attribute of the [infNFe] node, empty when the attribute is absent,
    with every occurrence of [NFe] removed, from left to right.  When
    [Id] is [NFe] followed by a string free of [NFe] the key is that
    string; when [Id] has no [NFe] at all the key is [Id]. *)
Theorem access_key_removes_every_NFe :
  forall (etree_parse : string -> result element)
         (file_path : string) (d : dict),
  parse_xml_file etree_parse file_path = Ok (Some d) ->
  is_success d = true ->
  exists root nfe_info,
    etree_parse file_path = Ok root /\
    locate_infNFe root = Ok (Some nfe_info) /\
    dict_lookup d "chave_acesso"
    = Some (VStr (remove (get nfe_info "Id" "") "NFe")) /\
    ((forall v, ~ In ("Id", v) (attrib nfe_info)) ->
     dict_lookup d "chave_acesso" = Some (VStr "")) /\
    (forall rest,
        get nfe_info "Id" "" = "NFe" ++ rest ->
        contains rest "NFe" = false ->
        dict_lookup d "chave_acesso" = Some (VStr rest)) /\
    (contains (get nfe_info "Id" "") "NFe" = false ->
     dict_lookup d "chave_acesso" = Some (VStr (get nfe_info "Id" ""))).
Proof.
  intros * Hp Hs.
  destruct (success_inversion _ _ _ Hp Hs)
    as (root & nfe_info & Hroot & Hloc & _ & ->).
  exists root, nfe_info. split; [assumption|]. split; [assumption|].
  assert (Hkey : dict_lookup (success_record file_path nfe_info)
                   "chave_acesso"
                 = Some (VStr (remove (get nfe_info "Id" "") "NFe")))
    by reflexivity.
  rewrite Hkey. repeat split.
  - intros Habs. now rewrite (get_absent _ _ _ Habs).
  - intros rest -> Hfree.
    now rewrite remove_leading_NFe, remove_no_occurrence.
  - intros Hfree. now rewrite remove_no_occurrence.
Qed.

Lemma access_key_removes_every_NFe_witness :
  exists d,
    parse_xml_file Samples.parsed "/notas/a.xml" = Ok (Some d) /\
    is_success d = true /\
    dict_lookup d "chave_acesso" = Some (VStr "3519").
Proof.
  eexists. split; [reflexivity|]. split; [reflexivity|].
  destruct (access_key_removes_every_NFe Samples.parsed "/notas/a.xml" _
              eq_refl eq_refl)
    as (root & nfe_info & Hroot & Hloc & Hkey & _).
  injection Hroot as <-. injection Hloc as <-. exact Hkey.
Defined.

(* ===================================================================== *)
(** ** Namespaced documents, operation type and skipped files *)
(* ===================================================================== *)

(** The rule the code applies in a successful record: the blocks and the
    fields are looked up by bare name below the [infNFe] node. *)
Lemma tipo_operacao_rule (etree_parse : string -> result element)
  (file_path : string) (d : dict) :
  parse_xml_file etree_parse file_path = Ok (Some d) ->
  is_success d = true ->
  exists root nfe_info,
    etree_parse file_path = Ok root /\
    locate_infNFe root = Ok (Some nfe_info) /\
    dict_lookup d "tipo_operacao"
    = Some (VStr (if String.eqb
                       (field (first_descendant "ide" nfe_info) "tpNF") "0"
                  then "Entrada" else "Saída")).
Proof.
  intros Hp Hs.
  destruct (success_inversion _ _ _ Hp Hs)
    as (root & nfe_info & Hroot & Hloc & _ & ->).
  now exists root, nfe_info.
Qed.

Example tipo_operacao_plain_document :
  exists d,
    parse_xml_file (fun _ => Ok Samples.nota) "/notas/a.xml" = Ok (Some d) /\
    dict_lookup d "tipo_operacao" = Some (VStr "Entrada").
Proof. eexists. split; reflexivity. Qed.

(** C3. The code on the namespaced document [nota_nfe]: the [infNFe] node
    is found through the namespace, its identification block holds the
    operation-type code [0], the extraction succeeds, and the record says
    [Saída].  The blocks are looked up by bare name, which no element of
    a namespace answers to. *)
Theorem namespaced_tpNF_zero_gives_Saida :
  exists nfe_info d,
    locate_infNFe Samples.nota_nfe = Ok (Some nfe_info) /\
    field (first_descendant "{http://www.portalfiscal.inf.br/nfe}ide"
             nfe_info)
          "{http://www.portalfiscal.inf.br/nfe}tpNF" = "0" /\
    first_descendant "ide" nfe_info = None /\
    parse_xml_file (fun _ => Ok Samples.nota_nfe) "/notas/a.xml"
    = Ok (Some d) /\
    is_success d = true /\
    dict_lookup d "tipo_operacao" = Some (VStr "Saída").
Proof.
  eexists. eexists. split; [reflexivity|]. split; [reflexivity|].
  split; [reflexivity|]. split; [reflexivity|]. split; reflexivity.
Qed.

(** C4. The code on [<root><!-- rascunho --></root>], which has no
    [infNFe] node under either name: the namespace loop stops on the
    comment with an [AttributeError], the extractor returns an error
    record, and the folder that holds the file gets a row for it. *)
Theorem commented_document_gives_error_row :
  first_descendant "{http://www.portalfiscal.inf.br/nfe}infNFe"
    Samples.commented = None /\
  first_descendant "infNFe" Samples.commented = None /\
  locate_infNFe Samples.commented = Raise (Exn AttributeError no_startswith) /\
  parse_xml_file Samples.parsed "/rascunhos/r.xml"
  = Ok (Some [("arquivo", VStr "r.xml"); ("erro", VStr no_startswith)]) /\
  exists df self' seen,
    process_folder Samples.disk Samples.parsed Samples.decimal
      Samples.no_date __init__ "/rascunhos" = (Ok df, self', seen) /\
    len df = 1 /\
    at_ df 0 "erro" = Some (Str no_startswith).
Proof.
  split; [reflexivity|]. split; [reflexivity|]. split; [reflexivity|].
  split; [reflexivity|]. eexists. eexists. eexists.
  split; [reflexivity|]. split; reflexivity.
Qed.

(** The same document without the comment is skipped. *)
Example uncommented_document_skipped :
  parse_xml_file Samples.parsed "/ignoradas/c.xml" = Ok None /\
  collected Samples.parsed ["/ignoradas/c.xml"] = [].
Proof. split; reflexivity. Qed.

(** C6. The code on [nota] and on its namespaced counterpart [nota_nfe]:
    the plain document gives the invoice number, the issuer, [Entrada]
    and one item; the namespaced one gives empty fields, [Saída] and no
    item.  Only the access key is the same. *)
Theorem namespaced_and_plain_records_differ :
  Samples.nota_nfe = qualify Samples.nfe_uri Samples.nota /\
  parse_xml_file (fun _ => Ok Samples.nota_nfe) "/notas/a.xml"
  <> parse_xml_file (fun _ => Ok Samples.nota) "/notas/a.xml" /\
  (exists d,
      parse_xml_file (fun _ => Ok Samples.nota) "/notas/a.xml"
      = Ok (Some d) /\
      dict_lookup d "numero_nf" = Some (VStr "100") /\
      dict_lookup d "emit_nome" = Some (VStr "ACME") /\
      dict_lookup d "tipo_operacao" = Some (VStr "Entrada") /\
      dict_lookup d "qtd_itens" = Some (VInt 1) /\
      dict_lookup d "chave_acesso" = Some (VStr "3519")) /\
  (exists d,
      parse_xml_file (fun _ => Ok Samples.nota_nfe) "/notas/a.xml"
      = Ok (Some d) /\
      dict_lookup d "numero_nf" = Some (VStr "") /\
      dict_lookup d "emit_nome" = Some (VStr "") /\
      dict_lookup d "tipo_operacao" = Some (VStr "Saída") /\
      dict_lookup d "qtd_itens" = Some (VInt 0) /\
      dict_lookup d "chave_acesso" = Some (VStr "3519")).
Proof.
  split; [reflexivity|]. split.
  - vm_compute. discriminate.
  - split; eexists; repeat split; reflexivity.
Qed.

(* ===================================================================== *)
(** ** Every namespaced document, every monetary field *)
(* ===================================================================== *)

(** Induction on trees, with the hypothesis for every child. *)
Lemma element_rect_children (P : element -> Prop) :
  (forall t a x cs, Forall P cs -> P (Element t a x cs)) ->
  forall e, P e.
Proof.
  intros Hnode. fix IH 1. intros [t a x cs]. apply Hnode.
  induction cs as [|c cs IHcs]; constructor; [apply IH|exact IHcs].
Qed.

Lemma iter_qualify (uri : string) :
  forall e, iter (qualify uri e) = map (qualify uri) (iter e).
Proof.
  induction e as [t a x cs IH] using element_rect_children.
  cbn [qualify iter map]. f_equal.
  induction IH as [|c cs Hc _ IHcs]; [reflexivity|].
  cbn [map flat_map]. now rewrite map_app, Hc, IHcs.
Qed.

Lemma descendants_qualify (uri : string) (e : element) :
  flat_map iter (children (qualify uri e))
  = map (qualify uri) (flat_map iter (children e)).
Proof.
  destruct e as [t a x cs]. cbn [qualify children].
  induction cs as [|c cs IH]; [reflexivity|].
  cbn [map flat_map]. now rewrite map_app, iter_qualify, IH.
Qed.

(** A bare name matches no element of a namespace. *)
Lemma bare_name_misses_qualified (uri pat : string) (e : element) :
  startswith pat "{" = false -> pat <> "*" ->
  tag_matches pat (qualify uri e) = false.
Proof.
  intros Hbare Hstar. destruct e as [[local| |] a x cs]; try reflexivity.
  unfold tag_matches. cbn [qualify tag].
  destruct (String.eqb_spec pat "*") as [->|_]; [contradiction|].
  destruct (String.eqb_spec ("{" ++ uri ++ "}" ++ local) pat) as [<-|_];
    [|reflexivity].
  unfold startswith in Hbare. cbn in Hbare.
  destruct (uri ++ String "}" local); discriminate Hbare.
Qed.

Lemma bare_name_finds_nothing (uri pat : string) (e : element) :
  startswith pat "{" = false -> pat <> "*" ->
  iterdescendants pat (qualify uri e) = [].
Proof.
  intros Hbare Hstar. unfold iterdescendants. rewrite descendants_qualify.
  induction (flat_map iter (children e)) as [|n ns IH]; [reflexivity|].
  cbn [map filter]. now rewrite bare_name_misses_qualified.
Qed.

Lemma descendant_of_qualified (uri pat : string) (e n : element) :
  first_descendant pat (qualify uri e) = Some n ->
  exists n0, n = qualify uri n0.
Proof.
  unfold first_descendant, iterdescendants. rewrite descendants_qualify.
  induction (flat_map iter (children e)) as [|m ms IH]; [discriminate|].
  cbn [map filter]. destruct (tag_matches pat (qualify uri m)).
  - intros [= <-]. now exists m.
  - exact IH.
Qed.

(** X8. Whatever the document, once its elements are in the NF-e namespace
    and its [infNFe] node is found through the namespace, the extraction
    succeeds with empty fields, [Saída] and no item: none of the lookups
    below the node is qualified. *)
Lemma namespaced_record_is_blank (doc : element) (file_path : string) :
  first_descendant "{http://www.portalfiscal.inf.br/nfe}infNFe"
    (qualify Samples.nfe_uri doc) <> None ->
  exists d,
    parse_xml_file (fun _ => Ok (qualify Samples.nfe_uri doc)) file_path
    = Ok (Some d) /\
    is_success d = true /\
    dict_lookup d "numero_nf" = Some (VStr "") /\
    dict_lookup d "emit_nome" = Some (VStr "") /\
    dict_lookup d "dest_nome" = Some (VStr "") /\
    dict_lookup d "tipo_operacao" = Some (VStr "Saída") /\
    dict_lookup d "qtd_itens" = Some (VInt 0).
Proof.
  intros Hfound. rewrite parse_xml_file_spec. unfold locate_infNFe.
  rewrite (find_self_descendant _ ".//nfe:infNFe"
             "{http://www.portalfiscal.inf.br/nfe}infNFe")
    by reflexivity.
  cbn [bind].
  destruct (first_descendant "{http://www.portalfiscal.inf.br/nfe}infNFe"
              (qualify Samples.nfe_uri doc)) as [nfe_info|] eqn:E;
    [|contradiction].
  destruct (descendant_of_qualified _ _ _ _ E) as [n0 ->].
  assert (Hnone : forall pat,
             startswith pat "{" = false -> pat <> "*" ->
             first_descendant pat (qualify Samples.nfe_uri n0) = None).
  { intros pat Hb Hs. unfold first_descendant.
    now rewrite bare_name_finds_nothing. }
  rewrite (Hnone "total") by (reflexivity || discriminate).
  eexists. split; [reflexivity|].
  unfold success_record.
  rewrite (Hnone "ide"), (Hnone "emit"), (Hnone "dest")
    by (reflexivity || discriminate).
  rewrite (bare_name_finds_nothing _ "det") by (reflexivity || discriminate).
  repeat split; reflexivity.
Qed.

(** X5. In a successful record the six monetary fields are empty strings:
    a record is successful only when there is no [total] block to read. *)
Lemma monetary_fields_always_empty
  (etree_parse : string -> result element) (file_path : string) (d : dict)
  (col : string) :
  parse_xml_file etree_parse file_path = Ok (Some d) ->
  is_success d = true ->
  In col value_columns ->
  dict_lookup d col = Some (VStr "").
Proof.
  intros Hp Hs Hcol.
  destruct (success_inversion _ _ _ Hp Hs) as (root & info & _ & _ & _ & ->).
  cbn in Hcol. decompose [or] Hcol; subst; try reflexivity. contradiction.
Qed.

(* ===================================================================== *)
(** ** Comments and the namespace loop *)
(* ===================================================================== *)

(** The namespace loop runs to its end only on trees made of elements. *)
Lemma strip_namespaces_elements_only :
  forall e e', strip_namespaces e = Ok e' -> elements_only e = true.
Proof.
  induction e as [t a x cs IH] using element_rect_children.
  intros e' He. cbn [strip_namespaces] in He.
  destruct t as [name| |];
    [|cbn [strip_tag bind] in He; discriminate He
     |cbn [strip_tag bind] in He; discriminate He].
  destruct (strip_tag (Tag name)) as [t'|err]; [|discriminate He].
  cbn [bind] in He. cbn [elements_only].
  match type of He with
  | bind ?m _ = _ => destruct m as [cs'|err] eqn:Hcs; [|discriminate He]
  end.
  clear He. revert cs' Hcs.
  induction IH as [|c cs Hc _ IHcs]; intros cs' Hcs; [reflexivity|].
  cbn [forallb].
  destruct (strip_namespaces c) as [c'|err] eqn:Ec; [|discriminate Hcs].
  cbn [bind] in Hcs.
  match type of Hcs with
  | bind ?m _ = _ => destruct m as [cs''|err] eqn:Hrest; [|discriminate Hcs]
  end.
  rewrite (Hc c' eq_refl). cbn. exact (IHcs cs'' eq_refl).
Qed.

(** X9. Whatever the document, when the namespaced lookup finds nothing
    and a comment or a processing instruction sits anywhere in the tree,
    the extractor returns an error record and never [None]. *)
Lemma comment_turns_skip_into_error
  (etree_parse : string -> result element) (file_path : string)
  (root : element) :
  etree_parse file_path = Ok root ->
  first_descendant "{http://www.portalfiscal.inf.br/nfe}infNFe" root = None ->
  elements_only root = false ->
  exists e,
    parse_xml_file etree_parse file_path
    = Ok (Some (error_record file_path e)).
Proof.
  intros Hroot Hns Hcomment. rewrite parse_xml_file_spec, Hroot.
  unfold locate_infNFe.
  rewrite (find_self_descendant _ ".//nfe:infNFe"
             "{http://www.portalfiscal.inf.br/nfe}infNFe")
    by reflexivity.
  rewrite Hns. cbn [bind].
  destruct (strip_namespaces root) as [root'|e] eqn:Hstrip.
  - apply strip_namespaces_elements_only in Hstrip. congruence.
  - exists e. reflexivity.
Qed.

(* ===================================================================== *)
(** ** Strings: white space, suffixes and slashes *)
(* ===================================================================== *)

Import Props.

Lemma string_app_empty (s : string) : s ++ "" = s.
Proof. induction s as [|c s IH]; [reflexivity|]. cbn. now rewrite IH. Qed.

Lemma string_app_assoc (a b c : string) : (a ++ b) ++ c = a ++ (b ++ c).
Proof. induction a as [|x a IH]; [reflexivity|]. cbn. now rewrite IH. Qed.

Lemma prefix_empty (s : string) : String.prefix "" s = true.
Proof. now destruct s. Qed.








Lemma endswith_char (c : ascii) (s : string) :
  endswith s (String c "") = ends_in c s.
Proof.
  unfold endswith. induction s as [|a r IH]; [reflexivity|].
  destruct r as [|b r'].
  - cbn. destruct (Ascii.eqb a c); reflexivity.
  - cbn [String.length Nat.leb andb] in *.
    change (ends_in c (String a (String b r'))) with (ends_in c (String b r')).
    rewrite <- IH. cbn. now rewrite Nat.sub_0_r.
Qed.

Lemma ends_in_app (c : ascii) (a b : string) :
  b <> "" -> ends_in c (a ++ b) = ends_in c b.
Proof.
  intros Hb. induction a as [|x a IH]; [reflexivity|].
  cbn [append]. destruct (a ++ b) as [|y r] eqn:E.
  - destruct a; [cbn in E; contradiction|discriminate E].
  - exact IH.
Qed.

Lemma ends_in_split (c : ascii) (s : string) :
  ends_in c s = true -> exists a, s = a ++ String c "".
Proof.
  induction s as [|x r IH]; [discriminate|]. destruct r as [|y r'].
  - cbn. intros H. apply Ascii.eqb_eq in H. subst. now exists "".
  - intros H. destruct (IH H) as [a Ha]. exists (String x a).
    cbn. now rewrite <- Ha.
Qed.

Lemma ends_in_all_chars (p : ascii -> bool) (c : ascii) (s : string) :
  all_chars p s = true -> p c = false -> ends_in c s = false.
Proof.
  intros Hs Hc. induction s as [|x r IH]; [reflexivity|].
  cbn in Hs. apply andb_true_iff in Hs as [Hx Hr]. destruct r as [|y r'].
  - cbn. destruct (Ascii.eqb_spec x c); [congruence|reflexivity].
  - now apply IH.
Qed.

Lemma split_free (sep : ascii) (s : string) :
  all_chars (fun c => negb (Ascii.eqb c sep)) s = true ->
  split sep s = [s].
Proof.
  induction s as [|c r IH]; [reflexivity|]. cbn.
  intros H. apply andb_true_iff in H as [Hc Hr].
  apply negb_true_iff in Hc. rewrite Hc, (IH Hr). reflexivity.
Qed.

Lemma split_at_first (sep : ascii) (a b : string) :
  all_chars (fun c => negb (Ascii.eqb c sep)) a = true ->
  split sep (a ++ String sep b) = a :: split sep b.
Proof.
  induction a as [|c r IH].
  - cbn. now rewrite Ascii.eqb_refl.
  - cbn. intros H. apply andb_true_iff in H as [Hc Hr].
    apply negb_true_iff in Hc. rewrite Hc, (IH Hr). reflexivity.
Qed.

Lemma split_not_nil (sep : ascii) (s : string) : split sep s <> [].
Proof.
  destruct s as [|c r]; [discriminate|]. cbn.
  destruct (Ascii.eqb c sep); [discriminate|].
  destruct (split sep r); discriminate.
Qed.

Lemma last_split_app (sep : ascii) (a b : string) :
  last (split sep (a ++ String sep b)) "" = last (split sep b) "".
Proof.
  induction a as [|c r IH].
  - cbn. rewrite Ascii.eqb_refl.
    destruct (split sep b) eqn:E; [now apply split_not_nil in E|reflexivity].
  - cbn [append split]. destruct (Ascii.eqb c sep).
    + destruct (split sep (r ++ String sep b)) eqn:E;
        [now apply split_not_nil in E|]. exact IH.
    + destruct (split sep (r ++ String sep b)) as [|p ps] eqn:E;
        [now apply split_not_nil in E|].
      destruct ps as [|q qs]; [|exact IH].
      (* a single piece cannot hold the separator *)
      exfalso. clear IH.
      assert (Hlen : forall s, (2 <= List.length (split sep (s ++ String sep b)))%nat).
      { clear. induction s as [|x s IHs].
        - cbn. rewrite Ascii.eqb_refl. cbn.
          destruct (split sep b) eqn:E; [now apply split_not_nil in E|].
          cbn. lia.
        - cbn [append split]. destruct (Ascii.eqb x sep).
          + cbn. lia.
          + destruct (split sep (s ++ String sep b)) as [|u us];
              [cbn in IHs; lia|]. exact IHs. }
      specialize (Hlen r). rewrite E in Hlen. cbn in Hlen. lia.
Qed.

(** The base name of a joined path is the entry that was joined, for every
    folder path and every entry without a slash. *)
Lemma basename_join (folder entry : string) :
  slash_free entry = true -> basename (join folder entry) = entry.
Proof.
  intros Hfree.
  assert (Hbase : last (split "/" entry) "" = entry)
    by now rewrite (split_free "/" entry Hfree).
  assert (Hstart : startswith entry "/" = false).
  { unfold startswith. destruct entry as [|c r]; [reflexivity|].
    cbn in Hfree. apply andb_true_iff in Hfree as [Hc _].
    apply negb_true_iff in Hc. cbn [String.prefix].
    destruct (ascii_dec "/" c) as [<-|_]; [discriminate Hc|reflexivity]. }
  unfold join, basename. rewrite Hstart.
  destruct (String.eqb_spec folder "") as [->|_]; [exact Hbase|].
  cbn [orb]. rewrite endswith_char.
  destruct (ends_in "/" folder) eqn:E; cbv beta iota.
  - apply ends_in_split in E as [a ->].
    rewrite string_app_assoc. cbn [append].
    now rewrite last_split_app.
  - cbn [append]. now rewrite last_split_app.
Qed.

(* ===================================================================== *)
(** ** [_get_text] on every bare name *)
(* ===================================================================== *)

Lemma name_char_inv (c : ascii) :
  name_char c = true ->
  outside_fragment c = false /\ Ascii.eqb c "/" = false
  /\ Ascii.eqb c ":" = false.
Proof.
  unfold name_char. intros H.
  apply andb_true_iff in H as [H Hcolon].
  apply andb_true_iff in H as [Hout Hslash].
  now rewrite negb_true_iff in *.
Qed.

Lemma plain_name_chars (tag : string) :
  plain_name tag = true -> all_chars name_char tag = true /\ tag <> "".
Proof.
  destruct tag as [|c r]; [discriminate|]. cbn. intros H.
  apply andb_true_iff in H as [H Hr]. apply andb_true_iff in H as [H _].
  apply andb_true_iff in H as [Hc _]. rewrite Hc, Hr. now split.
Qed.

Lemma tokens_of_name (s : string) :
  all_chars name_char s = true ->
  forall acc, findall_tokens (Some acc) s = Some [("", acc ++ s)].
Proof.
  induction s as [|c r IH]; intros Hs acc.
  - cbn. now rewrite string_app_empty.
  - cbn in Hs. apply andb_true_iff in Hs as [Hc Hr].
    destruct (name_char_inv c Hc) as (Hout & Hslash & _).
    cbn [findall_tokens]. rewrite Hout, Hslash, (IH Hr).
    now rewrite string_app_assoc.
Qed.

Lemma tokens_of_plain (tag : string) :
  plain_name tag = true -> findall_tokens None tag = Some [("", tag)].
Proof.
  destruct tag as [|c r]; [discriminate|]. cbn [plain_name]. intros H.
  apply andb_true_iff in H as [H Hr]. apply andb_true_iff in H as [H Hstar].
  apply andb_true_iff in H as [Hc Hdot].
  destruct (name_char_inv c Hc) as (Hout & Hslash & Hcolon).
  apply negb_true_iff in Hstar, Hdot.
  cbn [findall_tokens]. rewrite Hout, Hslash, Hdot, Hstar, Hcolon.
  now rewrite (tokens_of_name r Hr).
Qed.

Lemma split_colon_name (s : string) :
  all_chars name_char s = true -> split_colon s = None.
Proof.
  induction s as [|c r IH]; [reflexivity|]. cbn. intros H.
  apply andb_true_iff in H as [Hc Hr].
  destruct (name_char_inv c Hc) as (_ & _ & Hcolon).
  now rewrite Hcolon, (IH Hr).
Qed.

Lemma expand_plain (tag : string) :
  all_chars name_char tag = true ->
  expand_token None ("", tag) = Ok ("", tag).
Proof.
  intros H. unfold expand_token. rewrite (split_colon_name tag H).
  now destruct (String.eqb tag "").
Qed.

Lemma path_not_to_slash (pre tag : string) :
  plain_name tag = true -> endswith (pre ++ tag) "/" = false.
Proof.
  intros H. destruct (plain_name_chars tag H) as [Hall Hne].
  rewrite endswith_char, ends_in_app by assumption.
  now apply (ends_in_all_chars name_char).
Qed.


(** [.//] in front of a tag argument that is already [.//name] makes a
    path the compiler rejects. *)
Lemma nested_path (name : string) :
  plain_name name = true ->
  build_path_iterator (".//" ++ ".//" ++ name) None
  = Raise (Exn SyntaxError "invalid descendant").
Proof.
  intros H. destruct (plain_name_chars name H) as [Hall _].
  unfold build_path_iterator.
  change (".//" ++ ".//" ++ name) with (".//.//" ++ name).
  rewrite (path_not_to_slash ".//.//" name H).
  change (startswith (".//.//" ++ name) "/") with false. cbv iota.
  change (findall_tokens None (".//.//" ++ name))
    with (option_map (cons (".", ""))
            (option_map (fun ts => ("//", "") :: ts)
               (option_map (cons (".", ""))
                  (option_map (fun ts => ("//", "") :: ts)
                     (findall_tokens None name))))).
  rewrite (tokens_of_plain name H). cbn [option_map map].
  rewrite (expand_plain name Hall). reflexivity.
Qed.





(** X3. A tag argument of the shape [.//name], as the six monetary
    fields pass it, makes [_get_text] raise [SyntaxError] with the message
    [invalid descendant] for every parent there is, whatever the parent
    holds; without a parent the default is returned. *)
Theorem get_text_on_nested_path :
  forall (name default : string),
  plain_name name = true ->
  _get_text None (".//" ++ name) default = Ok default /\
  forall parent,
    _get_text (Some parent) (".//" ++ name) default
    = Raise (Exn SyntaxError "invalid descendant").
Proof.
  intros name default Hplain. split; [reflexivity|]. intros parent.
  unfold _get_text, find, iterfind. now rewrite (nested_path name Hplain).
Qed.

Lemma get_text_on_nested_path_witness :
  plain_name "vNF" = true /\
  _get_text (first_descendant "total" Cases.nota_total) ".//vNF" ""
  = Raise (Exn SyntaxError "invalid descendant").
Proof.
  split; [reflexivity|].
  exact (proj2 (get_text_on_nested_path "vNF" "" eq_refl)
           (Samples.block "total"
              [Samples.block "ICMSTot" [Samples.leaf "vNF" "150.50"]])).
Defined.

(* ===================================================================== *)
(** ** Records of the extractor *)
(* ===================================================================== *)

(** X4. Whenever the [infNFe] node that was located has a descendant
    called [total], the extractor returns the error record whose message
    is [invalid descendant]: no document with a totals block gives a
    record of fields. *)
Theorem total_block_gives_error_record :
  forall (etree_parse : string -> result element) (file_path : string)
         (root nfe_info total : element),
  etree_parse file_path = Ok root ->
  locate_infNFe root = Ok (Some nfe_info) ->
  first_descendant "total" nfe_info = Some total ->
  parse_xml_file etree_parse file_path
  = Ok (Some [("arquivo", VStr (basename file_path));
              ("erro", VStr "invalid descendant")]).
Proof.
  intros * Hroot Hloc Htotal.
  now rewrite parse_xml_file_spec, Hroot, Hloc, Htotal.
Qed.

Lemma total_block_gives_error_record_witness :
  parse_xml_file Cases.parsed "/t.xml"
  = Ok (Some [("arquivo", VStr "t.xml");
              ("erro", VStr "invalid descendant")]).
Proof.
  exact (total_block_gives_error_record Cases.parsed "/t.xml"
           Cases.nota_total _ _ eq_refl eq_refl eq_refl).
Defined.

Lemma monetary_fields_always_empty_witness :
  exists d,
    parse_xml_file Cases.parsed "/misto/n.xml" = Ok (Some d) /\
    is_success d = true /\
    dict_lookup d "valor_total" = Some (VStr "").
Proof.
  eexists. split; [reflexivity|]. split; [reflexivity|].
  apply (monetary_fields_always_empty Cases.parsed "/misto/n.xml" _
           "valor_total" eq_refl eq_refl).
  cbn. tauto.
Defined.



(** X7. Every record the extractor returns names its file by base name
    under [arquivo] and is not empty, so the [if nfe_data:] test of the
    loop drops [None] and nothing else.  A record with [erro] has exactly
    the keys [arquivo] and [erro]; a record without has exactly the
    nineteen field keys, in the order of the source, with a count of
    items that is not negative. *)
Theorem record_shape :
  forall (etree_parse : string -> result element) (file_path : string)
         (d : dict),
  parse_xml_file etree_parse file_path = Ok (Some d) ->
  dict_lookup d "arquivo" = Some (VStr (basename file_path)) /\
  truthy (Some d) = true /\
  (is_success d = false -> map fst d = ["arquivo"; "erro"]) /\
  (is_success d = true ->
   map fst d
   = ["arquivo"; "numero_nf"; "serie"; "data_emissao"; "chave_acesso";
      "emit_cnpj"; "emit_nome"; "emit_fantasia"; "dest_cnpj"; "dest_nome";
      "valor_produtos"; "valor_desconto"; "valor_frete"; "valor_total";
      "valor_icms"; "valor_ipi"; "natureza_operacao"; "tipo_operacao";
      "qtd_itens"] /\
   exists n : nat, dict_lookup d "qtd_itens" = Some (VInt (Z.of_nat n))).
Proof.
  intros * Hp. rewrite parse_xml_file_spec in Hp.
  assert (Hd : (exists e, d = error_record file_path e) \/
               (exists nfe_info, d = success_record file_path nfe_info)).
  { destruct (etree_parse file_path) as [root|e].
    - destruct (locate_infNFe root) as [[nfe_info|]|e].
      + destruct (first_descendant "total" nfe_info);
          injection Hp as <-; eauto.
      + discriminate Hp.
      + injection Hp as <-. eauto.
    - injection Hp as <-. eauto. }
  destruct Hd as [[e ->]|[nfe_info ->]];
    repeat split; try reflexivity; try discriminate.
  now eexists.
Qed.

Lemma record_shape_witness :
  exists d,
    parse_xml_file Cases.parsed "/misto/x.xml" = Ok (Some d) /\
    dict_lookup d "arquivo" = Some (VStr "x.xml") /\
    map fst d = ["arquivo"; "erro"].
Proof.
  eexists. split; [reflexivity|].
  destruct (record_shape Cases.parsed "/misto/x.xml" _ eq_refl)
    as (Harq & _ & Herr & _).
  split; [exact Harq|exact (Herr eq_refl)].
Defined.

Lemma namespaced_record_is_blank_witness :
  exists d,
    parse_xml_file (fun _ => Ok (qualify Samples.nfe_uri Cases.nota_antiga))
      "/misto/n.xml" = Ok (Some d) /\
    dict_lookup d "numero_nf" = Some (VStr "") /\
    dict_lookup d "tipo_operacao" = Some (VStr "Saída").
Proof.
  assert (Hfound :
    first_descendant "{http://www.portalfiscal.inf.br/nfe}infNFe"
      (qualify Samples.nfe_uri Cases.nota_antiga) <> None)
    by (vm_compute; discriminate).
  destruct (namespaced_record_is_blank Cases.nota_antiga "/misto/n.xml"
              Hfound)
    as (d & Hd & _ & Hnum & _ & _ & Htipo & _).
  exists d. now repeat split.
Defined.

Lemma comment_turns_skip_into_error_witness :
  exists e,
    parse_xml_file Samples.parsed "/rascunhos/r.xml"
    = Ok (Some (error_record "/rascunhos/r.xml" e)).
Proof.
  exact (comment_turns_skip_into_error Samples.parsed "/rascunhos/r.xml"
           Samples.commented eq_refl eq_refl eq_refl).
Defined.

(** X11. The file name a record carries is the directory entry itself:
    for every folder path and every entry without a slash, the record of
    the joined path has the entry under [arquivo]. *)
Theorem arquivo_is_entry_name :
  forall (etree_parse : string -> result element)
         (folder_path entry : string) (d : dict),
  slash_free entry = true ->
  parse_xml_file etree_parse (join folder_path entry) = Ok (Some d) ->
  dict_lookup d "arquivo" = Some (VStr entry).
Proof.
  intros * Hfree Hp. rewrite parse_xml_file_spec in Hp.
  rewrite <- (basename_join folder_path entry Hfree).
  destruct (etree_parse (join folder_path entry)) as [root|e].
  - destruct (locate_infNFe root) as [[nfe_info|]|e].
    + destruct (first_descendant "total" nfe_info);
        injection Hp as <-; reflexivity.
    + discriminate Hp.
    + injection Hp as <-. reflexivity.
  - injection Hp as <-. reflexivity.
Qed.

Lemma arquivo_is_entry_name_witness :
  exists d,
    slash_free "n.xml" = true /\
    parse_xml_file Cases.parsed (join "/misto/" "n.xml") = Ok (Some d) /\
    dict_lookup d "arquivo" = Some (VStr "n.xml").
Proof.
  eexists. split; [reflexivity|]. split; [reflexivity|].
  exact (arquivo_is_entry_name Cases.parsed "/misto/" "n.xml" _
           eq_refl eq_refl).
Defined.

(* ===================================================================== *)
(** ** Documents in another namespace *)
(* ===================================================================== *)

Lemma all_chars_weaken (p q : ascii -> bool) (s : string) :
  (forall c, p c = true -> q c = true) ->
  all_chars p s = true -> all_chars q s = true.
Proof.
  intros Hpq. induction s as [|c r IH]; [reflexivity|]. cbn.
  intros H. apply andb_true_iff in H as [Hc Hr].
  now rewrite (Hpq c Hc), (IH Hr).
Qed.

Lemma brace_free_close (s : string) :
  brace_free s = true ->
  all_chars (fun c => negb (Ascii.eqb c "}")) s = true.
Proof.
  apply all_chars_weaken. intros c H. now apply andb_true_iff in H as [_ H].
Qed.

Lemma brace_free_open (s : string) :
  brace_free s = true -> startswith s "{" = false.
Proof.
  destruct s as [|c r]; [reflexivity|]. cbn [brace_free all_chars].
  intros H. apply andb_true_iff in H as [H _].
  apply andb_true_iff in H as [H _]. apply negb_true_iff in H.
  unfold startswith. cbn [String.prefix].
  destruct (ascii_dec "{" c) as [<-|_]; [discriminate H|reflexivity].
Qed.

Lemma split_qualified (uri local : string) :
  brace_free uri = true -> brace_free local = true ->
  split "}" ("{" ++ uri ++ "}" ++ local) = ["{" ++ uri; local].
Proof.
  intros Hu Hl.
  change ("{" ++ uri ++ "}" ++ local)
    with (String "{" uri ++ String "}" local).
  rewrite split_at_first.
  - now rewrite (split_free "}" local (brace_free_close local Hl)).
  - cbn. now apply brace_free_close.
Qed.

Lemma strip_tag_qualified (uri local : string) :
  brace_free uri = true -> brace_free local = true ->
  strip_tag (Tag ("{" ++ uri ++ "}" ++ local)) = Ok (Tag local).
Proof.
  intros Hu Hl. unfold strip_tag.
  rewrite (split_qualified uri local Hu Hl).
  change ("{" ++ uri ++ "}" ++ local)
    with (String "{" (uri ++ String "}" local)).
  unfold startswith. cbn [String.prefix].
  destruct (ascii_dec "{" "{") as [_|Hne]; [|now contradiction Hne].
  now rewrite prefix_empty.
Qed.

Lemma strip_tag_plain (name : string) :
  brace_free name = true -> strip_tag (Tag name) = Ok (Tag name).
Proof. intros H. unfold strip_tag. now rewrite (brace_free_open name H). Qed.

(** The namespace loop undoes [qualify]. *)
Lemma strip_qualified (uri : string) :
  brace_free uri = true ->
  forall doc,
    plain_document doc = true ->
    strip_namespaces (qualify uri doc) = Ok doc.
Proof.
  intros Hu. induction doc as [t a x cs IH] using element_rect_children.
  destruct t as [name| |]; try discriminate. cbn [plain_document].
  intros H. apply andb_true_iff in H as [Hname Hcs].
  cbn [qualify strip_namespaces].
  rewrite (strip_tag_qualified uri name Hu Hname). cbn [bind].
  match goal with
  | |- bind ?m _ = _ => assert (Hall : m = Ok cs)
  end.
  { clear Hname. induction IH as [|c cs Hc _ IHcs]; [reflexivity|].
    cbn [forallb] in Hcs. apply andb_true_iff in Hcs as [Hpc Hpcs].
    cbn [map]. rewrite (Hc Hpc). cbn [bind].
    now rewrite (IHcs Hpcs). }
  now rewrite Hall.
Qed.

(** On a document without namespace the loop changes nothing. *)
Lemma strip_plain :
  forall doc, plain_document doc = true -> strip_namespaces doc = Ok doc.
Proof.
  induction doc as [t a x cs IH] using element_rect_children.
  destruct t as [name| |]; try discriminate. cbn [plain_document].
  intros H. apply andb_true_iff in H as [Hname Hcs].
  cbn [strip_namespaces]. rewrite (strip_tag_plain name Hname). cbn [bind].
  match goal with
  | |- bind ?m _ = _ => assert (Hall : m = Ok cs)
  end.
  { clear Hname. induction IH as [|c cs Hc _ IHcs]; [reflexivity|].
    cbn [forallb] in Hcs. apply andb_true_iff in Hcs as [Hpc Hpcs].
    rewrite (Hc Hpc). cbn [bind]. now rewrite (IHcs Hpcs). }
  now rewrite Hall.
Qed.

Lemma plain_nodes :
  forall doc,
    plain_document doc = true ->
    Forall (fun m => plain_document m = true) (iter doc).
Proof.
  induction doc as [t a x cs IH] using element_rect_children.
  intros H. cbn [iter]. constructor; [exact H|].
  destruct t as [name| |]; try discriminate. cbn [plain_document] in H.
  apply andb_true_iff in H as [_ Hcs].
  induction IH as [|c cs Hc _ IHcs]; [constructor|].
  cbn [forallb] in Hcs. apply andb_true_iff in Hcs as [Hpc Hpcs].
  cbn [flat_map]. apply Forall_app. split; [now apply Hc|now apply IHcs].
Qed.

Lemma plain_descendants (doc : element) :
  plain_document doc = true ->
  Forall (fun m => plain_document m = true) (flat_map iter (children doc)).
Proof.
  intros H. apply plain_nodes in H. destruct doc as [t a x cs].
  cbn [iter children] in *. now inversion H.
Qed.

Lemma filter_none {A : Type} (f : A -> bool) (l : list A) :
  Forall (fun x => f x = false) l -> filter f l = [].
Proof.
  induction 1 as [|x l Hx _ IH]; [reflexivity|]. cbn. now rewrite Hx.
Qed.

Lemma nfe_lookup_plain (doc : element) :
  plain_document doc = true ->
  first_descendant "{http://www.portalfiscal.inf.br/nfe}infNFe" doc = None.
Proof.
  intros H. unfold first_descendant, iterdescendants.
  rewrite filter_none; [reflexivity|].
  eapply Forall_impl; [|exact (plain_descendants doc H)].
  intros [[name| |] a x cs] Hm; try discriminate Hm.
  cbn [plain_document] in Hm. apply andb_true_iff in Hm as [Hname _].
  unfold tag_matches. cbn [tag orb String.eqb].
  destruct (String.eqb_spec name
              "{http://www.portalfiscal.inf.br/nfe}infNFe") as [->|_];
    [discriminate Hname|reflexivity].
Qed.

Lemma nfe_lookup_other (uri : string) (doc : element) :
  brace_free uri = true -> uri <> Samples.nfe_uri ->
  plain_document doc = true ->
  first_descendant "{http://www.portalfiscal.inf.br/nfe}infNFe"
    (qualify uri doc) = None.
Proof.
  intros Hu Hne H. unfold first_descendant, iterdescendants.
  rewrite descendants_qualify, filter_none; [reflexivity|].
  apply Forall_map.
  eapply Forall_impl; [|exact (plain_descendants doc H)].
  intros [[name| |] a x cs] Hm; try discriminate Hm.
  cbn [plain_document] in Hm. apply andb_true_iff in Hm as [Hname _].
  unfold tag_matches. cbn [qualify tag orb String.eqb].
  destruct (String.eqb_spec ("{" ++ uri ++ "}" ++ name)
              "{http://www.portalfiscal.inf.br/nfe}infNFe") as [Heq|_];
    [|reflexivity].
  exfalso. apply (f_equal (split "}")) in Heq.
  rewrite (split_qualified uri name Hu Hname) in Heq.
  vm_compute in Heq. injection Heq as Huri _. apply Hne.
  unfold Samples.nfe_uri. exact Huri.
Qed.

(** X10. A document whose elements all sit in a namespace other than the
    NF-e one is read exactly as the same document without namespace: the
    namespaced lookup finds nothing, the loop removes the namespace, and
    the rest of the extraction sees the plain tree. *)
Theorem other_namespace_is_transparent :
  forall (parse_qualified parse_plain : string -> result element)
         (file_path uri : string) (doc : element),
  brace_free uri = true ->
  uri <> "http://www.portalfiscal.inf.br/nfe" ->
  plain_document doc = true ->
  parse_qualified file_path = Ok (qualify uri doc) ->
  parse_plain file_path = Ok doc ->
  parse_xml_file parse_qualified file_path
  = parse_xml_file parse_plain file_path.
Proof.
  intros * Hu Hne Hdoc Hq Hp.
  rewrite !parse_xml_file_spec, Hq, Hp.
  assert (Hloc : locate_infNFe (qualify uri doc) = locate_infNFe doc).
  { unfold locate_infNFe.
    rewrite !(find_self_descendant _ ".//nfe:infNFe"
                "{http://www.portalfiscal.inf.br/nfe}infNFe")
      by reflexivity.
    rewrite (nfe_lookup_other uri doc Hu Hne Hdoc),
            (nfe_lookup_plain doc Hdoc).
    cbn [bind].
    now rewrite (strip_qualified uri Hu doc Hdoc), (strip_plain doc Hdoc). }
  now rewrite Hloc.
Qed.

Lemma other_namespace_is_transparent_witness :
  parse_xml_file Cases.parsed "/outro.xml"
  = parse_xml_file (fun _ => Ok Cases.nota_antiga) "/outro.xml".
Proof.
  apply (other_namespace_is_transparent Cases.parsed
           (fun _ => Ok Cases.nota_antiga) "/outro.xml" "urn:outro"
           Cases.nota_antiga); try reflexivity.
  discriminate.
Defined.

(* ===================================================================== *)
(** ** Which entries are XML files *)
(* ===================================================================== *)

Lemma lower_app (a b : string) : lower (a ++ b) = lower a ++ lower b.
Proof. induction a as [|c a IH]; [reflexivity|]. cbn. now rewrite IH. Qed.

Lemma lower_split (x y : string) :
  forall f, lower f = x ++ y ->
            exists a b, f = a ++ b /\ lower a = x /\ lower b = y.
Proof.
  induction x as [|c x IH]; intros f Hf.
  - exists "", f. now repeat split.
  - destruct f as [|d f]; [discriminate Hf|]. cbn in Hf.
    injection Hf as Hc Hf. destruct (IH f Hf) as (a & b & -> & Ha & Hb).
    exists (String d a), b. cbn. now rewrite Hc, Ha.
Qed.

Lemma string_length_app (a b : string) :
  String.length (a ++ b) = String.length a + String.length b.
Proof. induction a as [|c a IH]; [reflexivity|]. cbn. now rewrite IH. Qed.

Lemma substring_all (s : string) : substring 0 (String.length s) s = s.
Proof. induction s as [|c s IH]; [reflexivity|]. cbn. now rewrite IH. Qed.

Lemma substring_skip (a b : string) (m : nat) :
  substring (String.length a) m (a ++ b) = substring 0 m b.
Proof. induction a as [|c a IH]; [reflexivity|]. exact IH. Qed.

Lemma endswith_app (pre suffix : string) :
  endswith (pre ++ suffix) suffix = true.
Proof.
  unfold endswith. rewrite string_length_app.
  replace (String.length pre + String.length suffix - String.length suffix)
    with (String.length pre) by lia.
  rewrite substring_skip, substring_all, String.eqb_refl.
  rewrite andb_true_r. apply Nat.leb_le. lia.
Qed.

Lemma endswith_split (suffix : string) :
  forall s, endswith s suffix = true -> exists pre, s = pre ++ suffix.
Proof.
  unfold endswith. induction s as [|c s IH]; intros H.
  - apply andb_true_iff in H as [Hlen Hsub]. apply Nat.leb_le in Hlen.
    destruct suffix; [now exists ""|cbn in Hlen; lia].
  - apply andb_true_iff in H as [Hlen Hsub]. apply Nat.leb_le in Hlen.
    apply String.eqb_eq in Hsub.
    destruct (Nat.eq_dec (String.length suffix) (String.length (String c s)))
      as [Heq|Hneq].
    + rewrite Heq, Nat.sub_diag, substring_all in Hsub.
      exists "". now rewrite <- Hsub.
    + cbn [String.length] in *.
      assert (Hle : String.length suffix <= String.length s) by lia.
      replace (S (String.length s) - String.length suffix)
        with (S (String.length s - String.length suffix)) in Hsub by lia.
      cbn [substring] in Hsub.
      destruct IH as [pre Hpre].
      { apply andb_true_iff. split; [now apply Nat.leb_le|].
        now apply String.eqb_eq. }
      exists (String c pre). cbn. now rewrite <- Hpre.
Qed.

(** X17. An entry is taken for an XML file exactly when it ends in an
    extension that reads [.xml] once lower-cased, whatever stands before
    it, nothing included; it then has at least four characters. *)
Theorem is_xml_by_extension :
  forall f : string,
  (is_xml f = true <->
   exists name ext, f = name ++ ext /\ lower ext = ".xml") /\
  (is_xml f = true -> 4 <= String.length f).
Proof.
  intros f. assert (Hiff : is_xml f = true <->
                    exists name ext, f = name ++ ext /\ lower ext = ".xml").
  { unfold is_xml. split.
    - intros H. apply endswith_split in H as [pre Hpre].
      destruct (lower_split pre ".xml" f Hpre) as (a & b & -> & _ & Hb).
      now exists a, b.
    - intros (name & ext & -> & Hext).
      rewrite lower_app, Hext. apply endswith_app. }
  split; [exact Hiff|].
  intros H. apply Hiff in H as (name & ext & -> & Hext).
  rewrite string_length_app.
  assert (Hlen : forall s, String.length (lower s) = String.length s).
  { induction s as [|c s IH]; [reflexivity|]. cbn. now rewrite IH. }
  rewrite <- (Hlen ext), Hext. cbn. lia.
Qed.

(* ===================================================================== *)
(** ** Tables of a folder *)
(* ===================================================================== *)

Lemma collected_origin (etree_parse : string -> result element)
  (files : list string) (d : dict) :
  In d (collected etree_parse files) ->
  exists file,
    In file files /\ parse_xml_file etree_parse file = Ok (Some d).
Proof.
  unfold collected. rewrite in_flat_map. intros (file & Hin & Hd).
  exists file. split; [assumption|].
  destruct (parse_xml_file etree_parse file) as [[[|kv r]|]|e];
    try contradiction.
  destruct Hd as [<-|[]]. reflexivity.
Qed.



Section FolderTables.

Variable fs : string -> option fsnode.
Variable etree_parse : string -> result element.
Variables float timestamp : Type.
Variable to_float : string -> option float.
Variable to_timestamp : list string -> string -> option timestamp.

Local Abbreviation frame := (DataFrame float timestamp).

Lemma collected_malformed (files : list string) :
  all_malformed etree_parse files = true ->
  collected etree_parse files
  = map (fun f => [("arquivo", VStr (basename f));
                   ("erro", VStr (match etree_parse f with
                                  | Raise e => exn_str e
                                  | Ok _ => ""
                                  end))]) files.
Proof.
  induction files as [|f files IH]; [reflexivity|].
  cbn [all_malformed forallb]. intros H.
  apply andb_true_iff in H as [Hf Hfiles].
  unfold collected in *. cbn [flat_map map].
  rewrite parse_xml_file_spec.
  destruct (etree_parse f) as [root|e]; [discriminate Hf|].
  cbn [app error_record]. f_equal. now apply IH.
Qed.

Lemma union_keys_errors (g : string -> dict) (files : list string) :
  (forall f, map fst (g f) = ["arquivo"; "erro"]) ->
  union_keys ["arquivo"; "erro"] (map g files) = ["arquivo"; "erro"].
Proof.
  intros Hg. induction files as [|f files IH]; [reflexivity|].
  cbn [map union_keys]. rewrite Hg. exact IH.
Qed.

Lemma of_records_errors (msg : string -> string) (f : string)
  (files : list string) :
  (of_records
     (map (fun f => [("arquivo", VStr (basename f)); ("erro", VStr (msg f))])
          (f :: files)) : frame)
  = mkDataFrame ["arquivo"; "erro"]
      (map (fun f => [("arquivo", Str (basename f)); ("erro", Str (msg f))])
           (f :: files)).
Proof.
  unfold of_records.
  assert (Hcols : union_keys []
            (map (fun f => [("arquivo", VStr (basename f));
                            ("erro", VStr (msg f))]) (f :: files))
          = ["arquivo"; "erro"]).
  { cbn [map union_keys]. apply union_keys_errors. reflexivity. }
  rewrite Hcols. f_equal. rewrite map_map. reflexivity.
Qed.

Lemma coerce_without_columns (df : frame) :
  columns df = ["arquivo"; "erro"] ->
  coerce to_float to_timestamp df = df.
Proof.
  intros Hcols. unfold coerce.
  assert (Hpass : forall cols,
             (forall c, In c cols -> mem c (columns df) = false) ->
             fold_left (fun df col =>
                          if mem col (columns df)
                          then assign df col (to_numeric to_float)
                          else df) cols df = df).
  { induction cols as [|c cols IH]; intros Hc; [reflexivity|].
    cbn [fold_left]. rewrite (Hc c) by now left.
    apply IH. intros c' Hc'. apply Hc. now right. }
  rewrite Hpass.
  - now rewrite Hcols.
  - intros c Hc. rewrite Hcols. cbn in Hc.
    decompose [or] Hc; subst; try reflexivity. contradiction.
Qed.

Lemma at_coerce_other (df : frame) (i : nat) (col : string) :
  mem col value_columns = false ->
  col <> "data_emissao" ->
  at_ (coerce to_float to_timestamp df) i col = at_ df i col.
Proof.
  intros Hcol Hdate. apply String.eqb_neq in Hdate. unfold coerce.
  match goal with |- context [if ?b then _ else _] => destruct b end.
  - rewrite at_assign, Hdate.
    rewrite (at_numeric_pass _ _ to_float col i value_columns
               value_columns_NoDup).
    now rewrite Hcol.
  - rewrite (at_numeric_pass _ _ to_float col i value_columns
               value_columns_NoDup).
    now rewrite Hcol.
Qed.

Lemma at_coerce_date (df : frame) (i : nat) :
  mem "data_emissao" (columns df) = true ->
  exists ctx,
    at_ (coerce to_float to_timestamp df) i "data_emissao"
    = option_map (to_datetime to_timestamp ctx) (at_ df i "data_emissao").
Proof.
  intros Hmem. unfold coerce. rewrite columns_numeric_pass, Hmem.
  eexists. rewrite at_assign, String.eqb_refl.
  rewrite (at_numeric_pass _ _ to_float "data_emissao" i value_columns
             value_columns_NoDup).
  reflexivity.
Qed.

End FolderTables.

Lemma monetary_fields_empty_of_success
  (etree_parse : string -> result element) (file : string) (d : dict)
  (col : string) :
  parse_xml_file etree_parse file = Ok (Some d) ->
  is_success d = true ->
  In col value_columns ->
  dict_lookup d col = Some (VStr "").
Proof.
  intros Hp Hs Hcol.
  destruct (success_inversion _ _ _ Hp Hs) as (root & info & _ & _ & _ & ->).
  cbn in Hcol. decompose [or] Hcol; subst; try reflexivity. contradiction.
Qed.

Lemma monetary_fields_absent_of_error
  (etree_parse : string -> result element) (file : string) (d : dict)
  (col : string) :
  parse_xml_file etree_parse file = Ok (Some d) ->
  is_success d = false ->
  In col value_columns ->
  dict_lookup d col = None.
Proof.
  intros Hp Hs Hcol. rewrite parse_xml_file_spec in Hp.
  assert (Hd : exists e, d = error_record file e).
  { destruct (etree_parse file) as [root|e].
    - destruct (locate_infNFe root) as [[nfe_info|]|e].
      + destruct (first_descendant "total" nfe_info);
          injection Hp as <-; [eauto|discriminate Hs].
      + discriminate Hp.
      + injection Hp as <-. eauto.
    - injection Hp as <-. eauto. }
  destruct Hd as [e ->].
  cbn in Hcol. decompose [or] Hcol; subst; try reflexivity. contradiction.
Qed.

(** X13. When the XML parser rejects every XML file of a folder, the call
    still returns a table: one row per file, in listing order, with the
    two columns [arquivo] and [erro] holding the base name of the file and
    the message of the parser; no coercion touches it. *)
Theorem all_malformed_gives_error_table :
  forall (fs : string -> option fsnode)
         (etree_parse : string -> result element)
         (float timestamp : Type)
         (to_float : string -> option float)
         (to_timestamp : list string -> string -> option timestamp)
         (self : NFEParser) (folder_path : string) (entries : list string),
  fs folder_path = Some (Directory entries) ->
  filter is_xml entries <> [] ->
  all_malformed etree_parse
    (map (join folder_path) (filter is_xml entries)) = true ->
  fst (fst (process_folder fs etree_parse to_float to_timestamp
              self folder_path))
  = Ok (mkDataFrame ["arquivo"; "erro"]
          (map (error_row etree_parse)
               (map (join folder_path) (filter is_xml entries)))).
Proof.
  intros * Hdir Hxml Hbad. rewrite process_folder_spec, Hdir. cbv zeta.
  destruct (map (join folder_path) (filter is_xml entries))
    as [|f files] eqn:E.
  - destruct (filter is_xml entries); [contradiction|discriminate E].
  - cbn [fst]. rewrite (collected_malformed etree_parse _ Hbad).
    rewrite (of_records_errors float timestamp
               (fun f => match etree_parse f with
                         | Raise e => exn_str e
                         | Ok _ => ""
                         end)).
    now rewrite coerce_without_columns.
Qed.

Lemma all_malformed_gives_error_table_witness :
  fst (fst (process_folder Cases.disk Cases.parsed Samples.decimal
              Cases.one_date __init__ "/lote"))
  = Ok (mkDataFrame ["arquivo"; "erro"]
          [[("arquivo", Str "x.xml");
            ("erro", Str "Document is empty, line 1, column 1")];
           [("arquivo", Str "y.XML");
            ("erro", Str "Document is empty, line 1, column 1")]]).
Proof.
  refine (all_malformed_gives_error_table Cases.disk Cases.parsed Z Z
            Samples.decimal Cases.one_date __init__ "/lote"
            ["x.xml"; "y.XML"; "leia.txt"] eq_refl _ eq_refl).
  discriminate.
Defined.

(** X14. In every table [process_folder] returns, every entry of the six
    monetary columns is null: rows of successful records hold the empty
    string there, which does not parse, and rows of error records have no
    such field.  No amount of an invoice ever reaches the table. *)
Theorem monetary_entries_always_null :
  forall (fs : string -> option fsnode)
         (etree_parse : string -> result element)
         (float timestamp : Type)
         (to_float : string -> option float)
         (to_timestamp : list string -> string -> option timestamp)
         (self self' : NFEParser) (folder_path : string)
         (df : DataFrame float timestamp) (seen : list string)
         (col : string) (i : nat),
  to_float "" = None ->
  process_folder fs etree_parse to_float to_timestamp self folder_path
  = (Ok df, self', seen) ->
  In col value_columns ->
  mem col (columns df) = true ->
  i < len df ->
  at_ df i col = Some NaN.
Proof.
  intros * Hempty Hrun Hcol Hmem Hi. rewrite process_folder_spec in Hrun.
  destruct (fs folder_path) as [[|entries]|]; try discriminate Hrun.
  cbv zeta in Hrun.
  destruct (map (join folder_path) (filter is_xml entries)) as [|f files];
    [discriminate Hrun|].
  set (records := collected etree_parse (f :: files)) in *.
  injection Hrun as <- _ _.
  rewrite columns_coerce in Hmem.
  rewrite len_coerce, len_of_records in Hi.
  destruct (nth_error records i) as [d|] eqn:Hd;
    [|apply nth_error_None in Hd; lia].
  rewrite at_coerce_monetary by assumption.
  rewrite Hmem, (at_of_records _ _ records i d col Hd), Hmem.
  destruct (collected_origin etree_parse (f :: files) d
              (nth_error_In _ _ Hd)) as (file & _ & Hfile).
  destruct (is_success d) eqn:Hs.
  - rewrite (monetary_fields_empty_of_success etree_parse file d col
               Hfile Hs Hcol).
    cbn. now rewrite Hempty.
  - rewrite (monetary_fields_absent_of_error etree_parse file d col
               Hfile Hs Hcol).
    reflexivity.
Qed.

Lemma monetary_entries_always_null_witness :
  exists df self' seen,
    Samples.decimal "" = None /\
    process_folder Cases.disk Cases.parsed Samples.decimal Cases.one_date
      __init__ "/misto" = (Ok df, self', seen) /\
    at_ df 0 "valor_total" = Some NaN /\
    at_ df 1 "valor_total" = Some NaN.
Proof.
  eexists. eexists. eexists. split; [reflexivity|]. split; [reflexivity|].
  assert (Hcol : In "valor_total" value_columns) by (cbn; tauto).
  split;
    refine (monetary_entries_always_null Cases.disk Cases.parsed Z Z
              Samples.decimal Cases.one_date __init__ _ "/misto" _ _
              "valor_total" _ eq_refl eq_refl Hcol eq_refl _);
    vm_compute; lia.
Defined.



(** X16. In the table returned, an entry of the date column is never left
    a string: the entry of a record that holds an issue date is the time
    stamp the date parser reads in it, or the null date when the parser
    reads none; the entry of a record without that field, in a table that
    has the column, is the null date. *)
Theorem date_column_coerced :
  forall (fs : string -> option fsnode)
         (etree_parse : string -> result element)
         (float timestamp : Type)
         (to_float : string -> option float)
         (to_timestamp : list string -> string -> option timestamp)
         (self self' : NFEParser) (folder_path : string)
         (df : DataFrame float timestamp) (seen : list string)
         (i : nat) (d : dict),
  process_folder fs etree_parse to_float to_timestamp self folder_path
  = (Ok df, self', seen) ->
  nth_error (data self') i = Some d ->
  (forall s,
      dict_lookup d "data_emissao" = Some (VStr s) ->
      exists ctx,
        at_ df i "data_emissao"
        = Some (match to_timestamp ctx s with
                | Some t => Timestamp t
                | None => NaT
                end)) /\
  (forall s,
      dict_lookup d "data_emissao" = Some (VStr s) ->
      (forall ctx, to_timestamp ctx s = None) ->
      at_ df i "data_emissao" = Some NaT) /\
  (dict_lookup d "data_emissao" = None ->
   mem "data_emissao" (columns df) = true ->
   at_ df i "data_emissao" = Some NaT).
Proof.
  intros * Hrun Hd. rewrite process_folder_spec in Hrun.
  destruct (fs folder_path) as [[|entries]|]; try discriminate Hrun.
  cbv zeta in Hrun.
  destruct (map (join folder_path) (filter is_xml entries)) as [|f files];
    [discriminate Hrun|].
  set (records := collected etree_parse (f :: files)) in *.
  injection Hrun as <- <- _. cbn [data] in Hd.
  assert (Hstr : forall s,
             dict_lookup d "data_emissao" = Some (VStr s) ->
             exists ctx,
               at_ (coerce to_float to_timestamp (of_records records))
                   i "data_emissao"
               = Some (match to_timestamp ctx s with
                       | Some t => Timestamp t
                       | None => NaT
                       end)).
  { intros s Hs.
    assert (Hm : mem "data_emissao"
                   (columns (of_records records
                             : DataFrame float timestamp)) = true).
    { unfold of_records. cbn [columns].
      apply (mem_union_keys "data_emissao" records d).
      - eapply nth_error_In; eassumption.
      - eapply dict_lookup_mem; eassumption. }
    destruct (at_coerce_date float timestamp to_float to_timestamp
                (of_records records) i Hm) as [ctx Hctx].
    exists ctx. rewrite Hctx.
    rewrite (at_of_records _ _ records i d "data_emissao" Hd), Hm, Hs.
    reflexivity. }
  repeat split.
  - exact Hstr.
  - intros s Hs Hnone. destruct (Hstr s Hs) as [ctx ->].
    now rewrite Hnone.
  - intros Hnone Hm. rewrite columns_coerce in Hm.
    destruct (at_coerce_date float timestamp to_float to_timestamp
                (of_records records) i Hm) as [ctx Hctx].
    rewrite Hctx.
    rewrite (at_of_records _ _ records i d "data_emissao" Hd), Hm, Hnone.
    reflexivity.
Qed.

Lemma date_column_coerced_witness :
  exists df self' seen,
    process_folder Cases.disk Cases.parsed Samples.decimal Cases.one_date
      __init__ "/misto" = (Ok df, self', seen) /\
    at_ df 0 "data_emissao" = Some (Timestamp 20100131%Z) /\
    at_ df 1 "data_emissao" = Some NaT.
Proof.
  eexists. eexists. eexists. split; [reflexivity|].
  split.
  - destruct (proj1 (date_column_coerced Cases.disk Cases.parsed Z Z
                       Samples.decimal Cases.one_date __init__ _ "/misto"
                       _ _ 0 _ eq_refl eq_refl) "2010-01-31" eq_refl)
      as [ctx Hctx].
    exact Hctx.
  - exact (proj2 (proj2 (date_column_coerced Cases.disk Cases.parsed Z Z
                           Samples.decimal Cases.one_date __init__ _ "/misto"
                           _ _ 1 _ eq_refl eq_refl)) eq_refl eq_refl).
Defined.

(* ===================================================================== *)
(** ** The page: pressing the button *)
(* ===================================================================== *)

Import App.

Lemma record_has_arquivo (etree_parse : string -> result element)
  (file : string) (d : dict) :
  parse_xml_file etree_parse file = Ok (Some d) ->
  dict_lookup d "arquivo" = Some (VStr (basename file)).
Proof.
  intros Hp. rewrite parse_xml_file_spec in Hp.
  destruct (etree_parse file) as [root|e].
  - destruct (locate_infNFe root) as [[nfe_info|]|e].
    + destruct (first_descendant "total" nfe_info);
        injection Hp as <-; reflexivity.
    + discriminate Hp.
    + injection Hp as <-. reflexivity.
  - injection Hp as <-. reflexivity.
Qed.

Section Page.

Variable fs : string -> option fsnode.
Variable etree_parse : string -> result element.
Variables float timestamp : Type.
Variable to_float : string -> option float.
Variable to_timestamp : list string -> string -> option timestamp.

Local Abbreviation frame := (DataFrame float timestamp).

Lemma empty_spec (df : frame) :
  empty df = false <-> 0 < len df /\ columns df <> [].
Proof.
  unfold empty, len. destruct (rows df), (columns df); cbn; split;
    try discriminate; try (intros [H1 H2]; try lia; congruence);
    intros _; split; try lia; discriminate.
Qed.

(** The table of a folder is empty exactly when no record was kept. *)
Lemma empty_table_of_collected (files : list string) :
  empty (coerce to_float to_timestamp
           (of_records (collected etree_parse files)) : frame)
  = match collected etree_parse files with
    | [] => true
    | _ :: _ => false
    end.
Proof.
  destruct (collected etree_parse files) as [|d records] eqn:E;
    [reflexivity|].
  apply empty_spec. rewrite len_coerce, len_of_records, columns_coerce.
  split; [cbn; lia|].
  destruct (collected_origin etree_parse files d) as (file & _ & Hfile).
  { rewrite E. now left. }
  apply record_has_arquivo, dict_lookup_mem in Hfile.
  assert (Hm : mem "arquivo" (columns (of_records (d :: records) : frame))
               = true).
  { unfold of_records. cbn [columns].
    apply (mem_union_keys "arquivo" (d :: records) d); [now left|exact Hfile]. }
  intros Hnil. rewrite Hnil in Hm. discriminate Hm.
Qed.

(** The run of the script with the button pressed, in closed form. *)
Lemma on_process_spec (folder_path : string) (df_nfe : option frame) :
  on_process fs etree_parse to_float to_timestamp folder_path df_nfe =
  if String.eqb folder_path "" then
    (st_error "⚠️ Por favor, insira o caminho da pasta!", df_nfe)
  else
    match fs folder_path with
    | None => (st_error ("⚠️ Pasta não encontrada: " ++ folder_path), df_nfe)
    | Some RegularFile =>
        (st_error ("⚠️ O caminho informado não é uma pasta: "
                   ++ folder_path), df_nfe)
    | Some (Directory entries) =>
        match filter is_xml entries with
        | [] =>
            (st_error ("⚠️ Erro: Nenhum arquivo XML encontrado em: "
                       ++ folder_path), df_nfe)
        | _ :: _ =>
            match collected etree_parse
                    (map (join folder_path) (filter is_xml entries)) with
            | [] =>
                (st_warning "⚠️ Nenhum dado foi extraído dos arquivos XML.",
                 df_nfe)
            | (_ :: _) as records =>
                (st_success
                   ("✅ " ++ str_of_len (List.length records)
                    ++ " nota(s) fiscal(is) processada(s) com sucesso!"),
                 Some (coerce to_float to_timestamp (of_records records)))
            end
        end
    end.
Proof.
  unfold on_process, os_path_exists, os_path_isdir.
  destruct (String.eqb folder_path ""); [reflexivity|].
  rewrite process_folder_spec.
  destruct (fs folder_path) as [[|entries]|]; cbn [negb]; try reflexivity.
  cbv zeta.
  destruct (filter is_xml entries) as [|f files]; [reflexivity|].
  cbn [map fst]. rewrite empty_table_of_collected.
  destruct (collected etree_parse (map (join folder_path) (f :: files)))
    as [|d records] eqn:E; cbn [map] in E; rewrite E; [reflexivity|].
  now rewrite len_coerce, len_of_records.
Qed.

End Page.


(** X19. A run that does not end in the success message leaves the table
    of the session as it was, so the page goes on showing the table of an
    earlier run; a run that ends in the success message stores a table
    that has at least one row, and the number announced is its number of
    rows. *)
Theorem session_table_changes_on_success_only :
  forall (fs : string -> option fsnode)
         (etree_parse : string -> result element)
         (float timestamp : Type)
         (to_float : string -> option float)
         (to_timestamp : list string -> string -> option timestamp)
         (folder_path : string)
         (df_nfe : option (DataFrame float timestamp)),
  let '(shown, df_nfe') :=
    on_process fs etree_parse to_float to_timestamp folder_path df_nfe in
  (df_nfe' = df_nfe /\ forall body, shown <> st_success body) \/
  (exists df,
      df_nfe' = Some df /\ 0 < len df /\ empty df = false /\
      shown = st_success
                ("✅ " ++ str_of_len (len df)
                 ++ " nota(s) fiscal(is) processada(s) com sucesso!")).
Proof.
  intros. rewrite on_process_spec.
  destruct (String.eqb folder_path ""); [left; split; [reflexivity|discriminate]|].
  destruct (fs folder_path) as [[|entries]|];
    try (left; split; [reflexivity|discriminate]).
  destruct (filter is_xml entries) as [|f files];
    [left; split; [reflexivity|discriminate]|].
  pose proof (empty_table_of_collected etree_parse float timestamp to_float
                to_timestamp (map (join folder_path) (f :: files))) as He.
  destruct (collected etree_parse (map (join folder_path) (f :: files)))
    as [|d records]; [left; split; [reflexivity|discriminate]|].
  right. eexists. split; [reflexivity|].
  rewrite len_coerce, len_of_records. repeat split.
  - cbn. lia.
  - exact He.
Qed.

(** X20. When the XML parser rejects every XML file of the folder, the
    page still announces them as processed with success: the number in
    the success message is the number of XML files, and the table stored
    holds their error rows. *)
Theorem malformed_files_counted_as_processed :
  forall (fs : string -> option fsnode)
         (etree_parse : string -> result element)
         (float timestamp : Type)
         (to_float : string -> option float)
         (to_timestamp : list string -> string -> option timestamp)
         (folder_path : string) (entries : list string)
         (df_nfe : option (DataFrame float timestamp)),
  folder_path <> "" ->
  fs folder_path = Some (Directory entries) ->
  filter is_xml entries <> [] ->
  all_malformed etree_parse
    (map (join folder_path) (filter is_xml entries)) = true ->
  on_process fs etree_parse to_float to_timestamp folder_path df_nfe
  = (st_success
       ("✅ " ++ str_of_len (List.length (filter is_xml entries))
        ++ " nota(s) fiscal(is) processada(s) com sucesso!"),
     Some (mkDataFrame ["arquivo"; "erro"]
             (map (error_row etree_parse)
                  (map (join folder_path) (filter is_xml entries))))).
Proof.
  intros * Hpath Hdir Hxml Hbad. rewrite on_process_spec, Hdir.
  apply String.eqb_neq in Hpath. rewrite Hpath.
  destruct (filter is_xml entries) as [|f files] eqn:E; [contradiction|].
  rewrite (collected_malformed etree_parse _ Hbad).
  pose proof (of_records_errors float timestamp
                (fun f => match etree_parse f with
                          | Raise e => exn_str e
                          | Ok _ => ""
                          end)
                (join folder_path f) (map (join folder_path) files))
    as Hrec.
  cbn [map] in *. cbv beta iota zeta.
  match goal with
  | |- context [coerce to_float to_timestamp (of_records ?x)] =>
      match type of Hrec with
      | _ = ?table =>
          assert (Hx : of_records x = table) by exact Hrec; rewrite Hx
      end
  end.
  rewrite coerce_without_columns by reflexivity.
  cbn [List.length]. rewrite !length_map. reflexivity.
Qed.

Lemma malformed_files_counted_as_processed_witness :
  on_process Cases.disk Cases.parsed Samples.decimal Cases.one_date
    "/lote" None
  = (st_success "✅ 2 nota(s) fiscal(is) processada(s) com sucesso!",
     Some (mkDataFrame ["arquivo"; "erro"]
             [[("arquivo", Str "x.xml");
               ("erro", Str "Document is empty, line 1, column 1")];
              [("arquivo", Str "y.XML");
               ("erro", Str "Document is empty, line 1, column 1")]])).
Proof.
  refine (malformed_files_counted_as_processed Cases.disk Cases.parsed Z Z
            Samples.decimal Cases.one_date "/lote"
            ["x.xml"; "y.XML"; "leia.txt"] None _ eq_refl _ eq_refl);
    discriminate.
Defined.

(* ===================================================================== *)
(** ** The page: filters and their choices *)
(* ===================================================================== *)

Section PageFilters.

Variables float timestamp : Type.

Local Abbreviation frame := (DataFrame float timestamp).

Lemma cell_is_spec (value : string) (c : cell float timestamp) :
  cell_is value c = true <-> c = Str value.
Proof.
  destruct c; cbn; split; try discriminate.
  - intros H. apply String.eqb_eq in H. now subst.
  - intros [= ->]. apply String.eqb_refl.
Qed.

Lemma select_eq_rows (df : frame) (col value : string)
  (row : list (string * cell float timestamp)) :
  In row (rows (select_eq df col value)) <->
  In row (rows df) /\ row_at row col = Some (Str value).
Proof.
  unfold select_eq. cbn [rows]. rewrite filter_In.
  destruct (row_at row col) as [c|].
  - rewrite cell_is_spec. split; intros [H1 H2]; split; congruence.
  - split; intros [H1 H2]; discriminate.
Qed.

Lemma select_eq_twice (df : frame) (col value : string) :
  select_eq (select_eq df col value) col value = select_eq df col value.
Proof.
  unfold select_eq. cbn [rows columns]. f_equal.
  induction (rows df) as [|row l IH]; [reflexivity|]. cbn [filter].
  destruct (match row_at row col with
            | Some c => cell_is value c
            | None => false
            end) eqn:E; [|exact IH].
  cbn [filter]. rewrite E. now f_equal.
Qed.

Lemma select_eq_swap (df : frame) (c1 v1 c2 v2 : string) :
  select_eq (select_eq df c1 v1) c2 v2 = select_eq (select_eq df c2 v2) c1 v1.
Proof.
  unfold select_eq. cbn [rows columns]. f_equal.
  induction (rows df) as [|row l IH]; [reflexivity|]. cbn [filter].
  destruct (match row_at row c1 with
            | Some c => cell_is v1 c
            | None => false
            end) eqn:E1;
    destruct (match row_at row c2 with
              | Some c => cell_is v2 c
              | None => false
              end) eqn:E2;
    cbn [filter]; rewrite ?E1, ?E2; now rewrite ?IH.
Qed.

Lemma unique_In (v : string) (l : list string) : In v (unique l) <-> In v l.
Proof.
  induction l as [|x r IH]; [reflexivity|]. cbn [unique In].
  rewrite filter_In, IH.
  destruct (String.eqb_spec v x) as [->|Hne].
  - split; intros _; now left.
  - split; intros [H|H]; try (now left).
    + right. now destruct H.
    + right. split; [assumption|reflexivity].
Qed.

Lemma unique_NoDup (l : list string) : NoDup (unique l).
Proof.
  induction l as [|x r IH]; [constructor|]. cbn [unique]. constructor.
  - rewrite filter_In. intros [_ H]. now rewrite String.eqb_refl in H.
  - now apply NoDup_filter.
Qed.

Lemma strings_of_In (v : string) (cs : list (cell float timestamp)) :
  In v (strings_of cs) <-> In (Str v) cs.
Proof.
  unfold strings_of. rewrite in_flat_map. split.
  - intros (c & Hc & Hv). destruct c; try contradiction.
    destruct Hv as [<-|[]]. exact Hc.
  - intros H. exists (Str v). split; [assumption|now left].
Qed.

End PageFilters.

Lemma filtered_rows_iff (float timestamp : Type)
  (df : DataFrame float timestamp) (selected_emit selected_tipo : string)
  (row : list (string * cell float timestamp)) :
  In row (rows df) /\
  (mem "emit_nome" (columns df) = true -> selected_emit <> "Todos" ->
   row_at row "emit_nome" = Some (Str selected_emit)) /\
  (mem "tipo_operacao" (columns df) = true -> selected_tipo <> "Todos" ->
   row_at row "tipo_operacao" = Some (Str selected_tipo)) <->
  In row (rows (apply_filters df selected_emit selected_tipo)).
Proof.
  unfold apply_filters. cbv zeta.
  destruct (mem "emit_nome" (columns df)) eqn:He;
    destruct (mem "tipo_operacao" (columns df)) eqn:Ht;
    destruct (String.eqb_spec selected_emit "Todos") as [->|Hse];
    destruct (String.eqb_spec selected_tipo "Todos") as [->|Hst];
    cbn [andb negb]; rewrite ?select_eq_rows; intuition congruence.
Qed.

(** X21. The rows shown under the two filters are the rows of the table
    that agree with every filter in force, a filter being in force when
    its column exists and its choice is not [Todos]: the rows whose issuer
    name is the chosen string and whose operation type is the chosen
    string, nulls never agreeing.  The columns are kept, the choice of
    [Todos] twice changes nothing, and filtering a filtered table again
    with the same choices changes nothing. *)
Theorem filtered_rows :
  forall (float timestamp : Type) (df : DataFrame float timestamp)
         (selected_emit selected_tipo : string),
  (forall row,
      In row (rows (apply_filters df selected_emit selected_tipo)) <->
      In row (rows df) /\
      (mem "emit_nome" (columns df) = true -> selected_emit <> "Todos" ->
       row_at row "emit_nome" = Some (Str selected_emit)) /\
      (mem "tipo_operacao" (columns df) = true -> selected_tipo <> "Todos" ->
       row_at row "tipo_operacao" = Some (Str selected_tipo))) /\
  columns (apply_filters df selected_emit selected_tipo) = columns df /\
  apply_filters df "Todos" "Todos" = df /\
  apply_filters (apply_filters df selected_emit selected_tipo)
    selected_emit selected_tipo
  = apply_filters df selected_emit selected_tipo.
Proof.
  intros. unfold apply_filters. cbv zeta.
  destruct (mem "emit_nome" (columns df)) eqn:He;
    destruct (mem "tipo_operacao" (columns df)) eqn:Ht;
    destruct (String.eqb_spec selected_emit "Todos") as [->|Hse];
    destruct (String.eqb_spec selected_tipo "Todos") as [->|Hst];
    cbn [andb negb columns select_eq];
    rewrite ?He, ?Ht; cbn [andb negb];
    (split; [intros row; rewrite ?select_eq_rows; intuition congruence|]);
    (split; [reflexivity|]);
    (split; [rewrite ?andb_false_r; now destruct df|]);
    rewrite ?select_eq_twice; try reflexivity.
  rewrite (select_eq_swap _ _ (select_eq df "emit_nome" selected_emit)
             "tipo_operacao" selected_tipo "emit_nome" selected_emit).
  now rewrite !select_eq_twice.
Qed.

(** X22. The choices of a filter are [Todos] followed by the strings of
    the column, nulls left out, each once, in ascending order: a string
    is offered exactly when some entry of the column holds it. *)
Theorem filter_options_listing :
  forall (float timestamp : Type) (df : DataFrame float timestamp)
         (col : string),
  exists rest,
    filter_options df col = "Todos" :: rest /\
    NoDup rest /\
    Sorted (fun a b => String.leb a b = true) rest /\
    forall v, In v rest <-> In (Str v) (column df col).
Proof.
  intros. unfold filter_options, sorted.
  set (l := unique (strings_of (column df col))).
  exists (StringSort.sort l). split; [reflexivity|].
  pose proof (StringSort.Permuted_sort l) as Hperm.
  split; [|split].
  - eapply Permutation_NoDup; [exact Hperm|apply unique_NoDup].
  - exact (StringSort.Sorted_sort l).
  - intros v.
    rewrite <- strings_of_In, <- (unique_In v (strings_of (column df col))).
    fold l. split.
    + exact (Permutation_in v (Permutation_sym Hperm)).
    + exact (Permutation_in v Hperm).
Qed.

(* ===================================================================== *)
(** ** The page on the tables of [process_folder] *)
(* ===================================================================== *)

Section PageTables.

Variable etree_parse : string -> result element.
Variables float timestamp : Type.
Variable to_float : string -> option float.
Variable to_timestamp : list string -> string -> option timestamp.

Local Abbreviation frame := (DataFrame float timestamp).

Lemma NoDup_snoc (k : string) (acc : list string) :
  NoDup acc -> ~ In k acc -> NoDup (acc ++ [k])%list.
Proof.
  induction 1 as [|x acc Hx Hnd IH]; intros Hk.
  - cbn. constructor; [intros []|constructor].
  - cbn. constructor.
    + rewrite in_app_iff. intros [H|[H|[]]]; [contradiction|].
      apply Hk. now left.
    + apply IH. intros H. apply Hk. now right.
Qed.

Lemma add_keys_NoDup (ks : list string) :
  forall seen,
    NoDup seen ->
    NoDup (fold_left (fun acc k => if mem k acc then acc
                                   else (acc ++ [k])%list) ks seen).
Proof.
  induction ks as [|k ks IH]; intros seen Hnd; [assumption|].
  cbn [fold_left]. apply IH. destruct (mem k seen) eqn:E; [assumption|].
  apply NoDup_snoc; [assumption|]. intros H. apply mem_In in H. congruence.
Qed.

Lemma union_keys_NoDup (records : list dict) :
  forall seen, NoDup seen -> NoDup (union_keys seen records).
Proof.
  induction records as [|d records IH]; intros seen Hnd; [assumption|].
  cbn. apply IH. now apply add_keys_NoDup.
Qed.

Lemma assign_keys (df : frame) (c : string) f (keys : list string) :
  Forall (fun row => map fst row = keys) (rows df) ->
  Forall (fun row => map fst row = keys) (rows (assign df c f)).
Proof.
  unfold assign. cbn [rows]. intros H. apply Forall_map.
  eapply Forall_impl; [|exact H]. intros row <-.
  rewrite map_map. apply map_ext. intros [k x]. cbn.
  now destruct (String.eqb k c).
Qed.

Lemma numeric_pass_keys (keys cols : list string) :
  forall df : frame,
    Forall (fun row => map fst row = keys) (rows df) ->
    Forall (fun row => map fst row = keys)
      (rows (fold_left (fun df col =>
                          if mem col (columns df)
                          then assign df col (to_numeric to_float)
                          else df) cols df)).
Proof.
  induction cols as [|c cols IH]; intros df H; [assumption|].
  cbn [fold_left]. apply IH. destruct (mem c (columns df)); [|assumption].
  now apply assign_keys.
Qed.

(** Every row of a table of [process_folder] has the labels of the table
    as its keys, each once. *)
Lemma table_keys (records : list dict) :
  let df : frame := coerce to_float to_timestamp (of_records records) in
  NoDup (columns df) /\
  Forall (fun row => map fst row = columns df) (rows df).
Proof.
  cbv zeta. rewrite columns_coerce. split.
  - unfold of_records. cbn [columns]. apply union_keys_NoDup. constructor.
  - assert (H0 : Forall (fun row => map fst row
                                    = columns (of_records records : frame))
                   (rows (of_records records : frame))).
    { unfold of_records. cbn [rows columns]. apply Forall_map.
      apply Forall_forall. intros d _. rewrite map_map. cbn.
      apply map_id. }
    unfold coerce.
    match goal with |- context [if ?b then _ else _] => destruct b end.
    + apply assign_keys. now apply numeric_pass_keys.
    + now apply numeric_pass_keys.
Qed.

Lemma row_at_unique (row : list (string * cell float timestamp))
  (k : string) (c : cell float timestamp) :
  NoDup (map fst row) -> In (k, c) row -> row_at row k = Some c.
Proof.
  unfold row_at. induction row as [|[k' c'] row IH]; intros Hnd Hin;
    [destruct Hin|].
  cbn in *. inversion Hnd as [|? ? Hk' Hnd']; subst.
  destruct Hin as [[= -> ->]|Hin].
  - now rewrite String.eqb_refl.
  - destruct (String.eqb_spec k' k) as [->|_]; [|now apply IH].
    exfalso. apply Hk'. apply in_map_iff. now exists (k, c).
Qed.

Lemma row_at_absent (row : list (string * cell float timestamp))
  (k : string) :
  ~ In k (map fst row) -> row_at row k = None.
Proof.
  unfold row_at. induction row as [|[k' c'] row IH]; intros Hk;
    [reflexivity|].
  cbn in *. destruct (String.eqb_spec k' k) as [->|_].
  - exfalso. apply Hk. now left.
  - apply IH. intros H. apply Hk. now right.
Qed.

Lemma column_origin (df : frame) (col : string) (c : cell float timestamp) :
  In c (column df col) ->
  exists row, In row (rows df) /\ In (col, c) row.
Proof.
  unfold column. rewrite in_flat_map. intros (row & Hrow & Hc).
  exists row. split; [assumption|].
  apply in_map_iff in Hc as ([k x] & <- & Hkx).
  apply filter_In in Hkx as [Hin Hk]. cbn in Hk.
  apply String.eqb_eq in Hk. now subst.
Qed.

(** A choice offered by a filter belongs to some row of the table. *)
Lemma option_has_row (records : list dict) (col v : string) :
  let df : frame := coerce to_float to_timestamp (of_records records) in
  In v (tl (filter_options df col)) ->
  exists row, In row (rows df) /\ row_at row col = Some (Str v).
Proof.
  cbv zeta. unfold filter_options, sorted. cbn [tl]. intros Hv.
  apply (Permutation_in v
           (Permutation_sym (StringSort.Permuted_sort _))) in Hv.
  apply unique_In, strings_of_In, column_origin in Hv
    as (row & Hrow & Hin).
  exists row. split; [assumption|].
  destruct (table_keys records) as [Hnd Hkeys].
  rewrite Forall_forall in Hkeys.
  apply row_at_unique; [|assumption].
  now rewrite (Hkeys row Hrow).
Qed.

End PageTables.

(** X23. On a table of [process_folder], every choice a filter offers
    besides [Todos] leaves at least one row when it is selected, for the
    issuer filter and for the operation-type filter alike. *)
Theorem offered_choice_selects_a_row :
  forall (fs : string -> option fsnode)
         (etree_parse : string -> result element)
         (float timestamp : Type)
         (to_float : string -> option float)
         (to_timestamp : list string -> string -> option timestamp)
         (self self' : NFEParser) (folder_path : string)
         (df : DataFrame float timestamp) (seen : list string)
         (choice : string),
  process_folder fs etree_parse to_float to_timestamp self folder_path
  = (Ok df, self', seen) ->
  (In choice (tl (filter_options df "emit_nome")) ->
   0 < len (apply_filters df choice "Todos")) /\
  (In choice (tl (filter_options df "tipo_operacao")) ->
   0 < len (apply_filters df "Todos" choice)).
Proof.
  intros * Hrun. rewrite process_folder_spec in Hrun.
  destruct (fs folder_path) as [[|entries]|]; try discriminate Hrun.
  cbv zeta in Hrun.
  destruct (map (join folder_path) (filter is_xml entries)) as [|f files];
    [discriminate Hrun|].
  set (records := collected etree_parse (f :: files)) in *.
  injection Hrun as <- _ _.
  assert (Hpos : forall (table : DataFrame float timestamp) row,
             In row (rows table) -> 0 < len table).
  { intros table row Hin. unfold len. destruct (rows table);
      [destruct Hin|cbn; lia]. }
  split; intros Hin;
    destruct (option_has_row float timestamp to_float
                to_timestamp records _ _ Hin)
      as (row & Hrow & Hat);
    apply (Hpos _ row); apply filtered_rows_iff;
    (split; [exact Hrow|]); split.
  - intros _ _. exact Hat.
  - intros _ Hne. exfalso. apply Hne. reflexivity.
  - intros _ Hne. exfalso. apply Hne. reflexivity.
  - intros _ _. exact Hat.
Qed.

Lemma offered_choice_selects_a_row_witness :
  exists df self' seen,
    process_folder Cases.disk Cases.parsed Samples.decimal Cases.one_date
      __init__ "/misto" = (Ok df, self', seen) /\
    filter_options df "emit_nome" = ["Todos"; "ACME"] /\
    0 < len (apply_filters df "ACME" "Todos").
Proof.
  eexists. eexists. eexists. split; [reflexivity|].
  split; [reflexivity|].
  refine (proj1 (offered_choice_selects_a_row Cases.disk Cases.parsed Z Z
                   Samples.decimal Cases.one_date __init__ _ "/misto" _ _
                   "ACME" eq_refl) _).
  vm_compute. tauto.
Defined.

(* ===================================================================== *)
(** ** The page: the columns shown *)
(* ===================================================================== *)

Lemma error_inversion (etree_parse : string -> result element)
  (file : string) (d : dict) :
  parse_xml_file etree_parse file = Ok (Some d) ->
  is_success d = false ->
  exists e, d = error_record file e.
Proof.
  intros Hp Hs. rewrite parse_xml_file_spec in Hp.
  destruct (etree_parse file) as [root|e].
  - destruct (locate_infNFe root) as [[nfe_info|]|e].
    + destruct (first_descendant "total" nfe_info);
        injection Hp as <-; [eauto|discriminate Hs].
    + discriminate Hp.
    + injection Hp as <-. eauto.
  - injection Hp as <-. eauto.
Qed.

Lemma find_nowhere {A : Type} (f : A -> bool) (l : list A) :
  (forall x, In x l -> f x = false) -> List.find f l = None.
Proof.
  induction l as [|a l IH]; intros H; [reflexivity|]. cbn.
  rewrite (H a) by now left. apply IH. intros x Hx. apply H. now right.
Qed.

Section PageColumns.

Variables float timestamp : Type.

Local Abbreviation frame := (DataFrame float timestamp).

Lemma find_projected (row : list (string * cell float timestamp))
  (c : string) (cols : list string) :
  option_map snd
    (List.find (fun kc : string * cell float timestamp =>
                  String.eqb (fst kc) c)
       (flat_map (fun c' => match row_at row c' with
                            | Some x => [(c', x)]
                            | None => []
                            end) cols))
  = if mem c cols then row_at row c else None.
Proof.
  induction cols as [|c' cols IH]; [reflexivity|].
  cbn [flat_map mem existsb]. fold (mem c cols).
  rewrite (String.eqb_sym c c').
  destruct (row_at row c') as [x|] eqn:E; cbn [app List.find fst].
  - destruct (String.eqb_spec c' c) as [->|_]; [now rewrite E|exact IH].
  - rewrite IH. destruct (String.eqb_spec c' c) as [->|_]; [|reflexivity].
    rewrite E. now destruct (mem c cols).
Qed.

Lemma at_project (df view : frame) (cols : list string) (i : nat)
  (c : string) :
  project df cols = Ok view ->
  In c cols ->
  at_ view i c = at_ df i c.
Proof.
  unfold project. destruct (List.find _ cols); [discriminate|].
  intros [= <-] Hc. unfold at_. cbn [rows]. rewrite nth_error_map.
  destruct (nth_error (rows df) i) as [row|]; [|reflexivity].
  cbn [option_map]. rewrite find_projected.
  apply mem_In in Hc. now rewrite Hc.
Qed.

End PageColumns.

(** X24. On a table of [process_folder] that holds at least one
    successful record, the columns shown by default are the seven of the
    source, none of which is [arquivo] or [erro]; the view has a row for
    every row of the table, and the row of an error record shows nothing
    but nulls in it.  On a table that holds error records only, no
    default column exists and the whole table is shown. *)
Theorem default_view_of_a_table :
  forall (fs : string -> option fsnode)
         (etree_parse : string -> result element)
         (float timestamp : Type)
         (to_float : string -> option float)
         (to_timestamp : list string -> string -> option timestamp)
         (self self' : NFEParser) (folder_path : string)
         (df : DataFrame float timestamp) (seen : list string),
  process_folder fs etree_parse to_float to_timestamp self folder_path
  = (Ok df, self', seen) ->
  ((exists d, In d (data self') /\ is_success d = true) ->
   default_columns (columns df)
   = ["numero_nf"; "serie"; "data_emissao"; "emit_nome";
      "dest_nome"; "valor_total"; "tipo_operacao"] /\
   exists view,
     displayed df (default_columns (columns df)) = Ok view /\
     columns view = default_columns (columns df) /\
     len view = len df /\
     forall i d c,
       nth_error (data self') i = Some d ->
       is_success d = false ->
       In c (default_columns (columns df)) ->
       at_ view i c = Some NaN \/ at_ view i c = Some NaT) /\
  ((forall d, In d (data self') -> is_success d = false) ->
   default_columns (columns df) = [] /\
   displayed df (default_columns (columns df)) = Ok df).
Proof.
  intros * Hrun. rewrite process_folder_spec in Hrun.
  destruct (fs folder_path) as [[|entries]|]; try discriminate Hrun.
  cbv zeta in Hrun.
  destruct (map (join folder_path) (filter is_xml entries)) as [|f files];
    [discriminate Hrun|].
  set (records := collected etree_parse (f :: files)) in *.
  injection Hrun as <- <- _. cbn [data]. rewrite columns_coerce.
  split.
  - (* a successful record gives the table all its columns *)
    intros (ds & Hds & Hsuccess).
    destruct (collected_origin etree_parse (f :: files) ds Hds)
      as (file & _ & Hfile).
    destruct (success_inversion _ _ _ Hfile Hsuccess)
      as (root & nfe_info & _ & _ & _ & Heq).
    assert (Hcols : forall c,
               In c ["numero_nf"; "serie"; "data_emissao"; "emit_nome";
                     "dest_nome"; "valor_total"; "tipo_operacao"] ->
               mem c (columns (of_records records
                               : DataFrame float timestamp)) = true).
    { intros c Hc. unfold of_records. cbn [columns].
      apply (mem_union_keys c records ds Hds). rewrite Heq.
      cbn in Hc. decompose [or] Hc; subst; try reflexivity. contradiction. }
    assert (Hdefault :
              default_columns
                (columns (of_records records : DataFrame float timestamp))
              = ["numero_nf"; "serie"; "data_emissao"; "emit_nome";
                 "dest_nome"; "valor_total"; "tipo_operacao"]).
    { unfold default_columns. apply forallb_filter_id.
      apply forallb_forall. exact Hcols. }
    split; [exact Hdefault|]. rewrite Hdefault.
    unfold displayed, project. rewrite columns_coerce.
    rewrite find_nowhere
      by (intros c Hc; now rewrite (Hcols c Hc)).
    eexists. split; [reflexivity|]. split; [reflexivity|].
    split; [unfold len; cbn [rows]; apply length_map|].
    intros i d c Hd Herr Hc.
    assert (Hview : forall view,
               project (coerce to_float to_timestamp (of_records records))
                 ["numero_nf"; "serie"; "data_emissao"; "emit_nome";
                  "dest_nome"; "valor_total"; "tipo_operacao"] = Ok view ->
               at_ view i c = Some NaN \/ at_ view i c = Some NaT).
    { intros view Hproject.
      rewrite (at_project float timestamp _ view _ i c Hproject Hc).
      destruct (collected_origin etree_parse (f :: files) d
                  (nth_error_In _ _ Hd)) as (file' & _ & Hfile').
      destruct (error_inversion etree_parse file' d Hfile' Herr) as [e ->].
      pose proof (Hcols c Hc) as Hm.
      pose proof (at_of_records float timestamp records i _ c Hd) as Hat.
      rewrite Hm in Hat.
      cbn in Hc. decompose [or] Hc; try contradiction; subst c.
      - left. rewrite at_coerce_other by (reflexivity || discriminate).
        exact Hat.
      - left. rewrite at_coerce_other by (reflexivity || discriminate).
        exact Hat.
      - right.
        destruct (at_coerce_date float timestamp to_float to_timestamp
                    (of_records records) i Hm) as [ctx Hctx].
        rewrite Hctx, Hat. reflexivity.
      - left. rewrite at_coerce_other by (reflexivity || discriminate).
        exact Hat.
      - left. rewrite at_coerce_other by (reflexivity || discriminate).
        exact Hat.
      - left. rewrite at_coerce_monetary by (cbn; tauto).
        rewrite Hm, Hat. reflexivity.
      - left. rewrite at_coerce_other by (reflexivity || discriminate).
        exact Hat. }
    apply Hview. unfold project. rewrite columns_coerce.
    rewrite find_nowhere
      by (intros c' Hc'; now rewrite (Hcols c' Hc')).
    reflexivity.
  - (* error records only *)
    intros Hall.
    assert (Hkeys : Forall (fun d => map fst d = ["arquivo"; "erro"]) records).
    { apply Forall_forall. intros d Hd.
      destruct (collected_origin etree_parse (f :: files) d Hd)
        as (file & _ & Hfile).
      destruct (error_inversion etree_parse file d Hfile (Hall d Hd))
        as [e ->].
      reflexivity. }
    assert (Hsub : forall seen0,
               seen0 = [] \/ seen0 = ["arquivo"; "erro"] ->
               union_keys seen0 records = []
               \/ union_keys seen0 records = ["arquivo"; "erro"]).
    { clearbody records. clear Hall.
      induction Hkeys as [|d records Hd _ IH]; intros seen0 Hseen;
        [exact Hseen|].
      cbn [union_keys]. rewrite Hd. apply IH. right.
      destruct Hseen as [-> | ->]; reflexivity. }
    assert (Hdefault :
              default_columns
                (columns (of_records records : DataFrame float timestamp))
              = []).
    { unfold of_records. cbn [columns].
      destruct (Hsub [] (or_introl eq_refl)) as [-> | ->]; reflexivity. }
    rewrite Hdefault. split; reflexivity.
Qed.

Lemma default_view_of_a_table_witness :
  exists df self' seen view,
    process_folder Cases.disk Cases.parsed Samples.decimal Cases.one_date
      __init__ "/misto" = (Ok df, self', seen) /\
    displayed df (default_columns (columns df)) = Ok view /\
    nth_error (rows view) 1
    = Some [("numero_nf", NaN); ("serie", NaN); ("data_emissao", NaT);
            ("emit_nome", NaN); ("dest_nome", NaN); ("valor_total", NaN);
            ("tipo_operacao", NaN)].
Proof.
  destruct (proj1 (default_view_of_a_table Cases.disk Cases.parsed Z Z
                     Samples.decimal Cases.one_date __init__ _ "/misto"
                     _ _ eq_refl))
    as (Hdefault & view & Hview & _).
  { eexists. split; [left; reflexivity|reflexivity]. }
  eexists. eexists. eexists. exists view.
  split; [reflexivity|]. split; [exact Hview|].
  vm_compute in Hview. injection Hview as <-. reflexivity.
Defined.
